(** * Scrapping.js: the review extractor and its pagination driver

    A shallow embedding of [V1.0/src/Scrapping.js].  The script keeps four
    globals ([allReviews], [currentPage], [totalPages], [isProcessing]),
    reads the page through selector queries, clicks the "next" control and
    sleeps on timers.  Here the globals are a record threaded through every
    function, the page is an explicit answer table for selector queries, and
    the browser is an interface giving the document currently shown, the
    effect of a click and the effect of letting time pass. *)

From Stdlib Require Import String Ascii Bool Arith NArith ZArith QArith Lia List.
From Stdlib Require DecimalString.
From Stdlib Require Import Sorted.
Import ListNotations.

Local Open Scope nat_scope.

(** ** JavaScript strings

    A JavaScript string is a sequence of UTF-16 code units. *)

Definition jsstring := list N.

(** Source literals of the script that are plain ASCII. *)
Definition js (s : string) : jsstring :=
  map N_of_ascii (list_ascii_of_string s).

(** The class [\s] of a regular expression, which is also what [trim]
    strips: white space and line terminators. *)
Definition isWhiteSpace (c : N) : bool :=
  ((9 <=? c) && (c <=? 13) || (c =? 32) || (c =? 160) || (c =? 5760)
   || (8192 <=? c) && (c <=? 8202) || (c =? 8232) || (c =? 8233)
   || (c =? 8239) || (c =? 8287) || (c =? 12288) || (c =? 65279))%N.

Definition isDigit (c : N) : bool := ((48 <=? c) && (c <=? 57))%N.

Definition SPACE : N := 32.
Definition COMMA : N := 44.
Definition DOT : N := 46.

Fixpoint trimStart (s : jsstring) : jsstring :=
  match s with
  | [] => []
  | c :: s' => if isWhiteSpace c then trimStart s' else s
  end.

Definition trimEnd (s : jsstring) : jsstring := rev (trimStart (rev s)).

Definition trim (s : jsstring) : jsstring := trimEnd (trimStart s).

(** [s.replace(/\s+/g, ' ')]: every maximal run of white space becomes one
    space.  [inRun] tells that the previous code unit was white space. *)
Fixpoint replaceRuns (inRun : bool) (s : jsstring) : jsstring :=
  match s with
  | [] => []
  | c :: s' =>
      if isWhiteSpace c
      then (if inRun then replaceRuns true s' else SPACE :: replaceRuns true s')
      else c :: replaceRuns false s'
  end.

(** [function cleanText(text)]: the empty string is falsy. *)
Definition cleanText (text : jsstring) : jsstring :=
  match text with
  | [] => []
  | _ => replaceRuns false (trim text)
  end.

(** ** Rating text *)

(** A JavaScript number, as far as the script produces one: the exact
    decimal value that [parseFloat] reads, or [NaN]. *)
Inductive JsNumber : Type :=
| NaN
| Num (q : Q).

(** [text.match(/([0-9],[0-9]|[0-9])/)]: the leftmost position where one of
    the alternatives matches, the first alternative being tried first
    there.  The result is capture group 1. *)
Fixpoint matchRating (text : jsstring) : option jsstring :=
  match text with
  | [] => None
  | c :: rest =>
      if isDigit c then
        match rest with
        | k :: d :: _ =>
            if (k =? COMMA)%N && isDigit d then Some [c; k; d] else Some [c]
        | _ => Some [c]
        end
      else matchRating rest
  end.

(** [s.replace(',', '.')]: a string pattern replaces its first occurrence. *)
Fixpoint replaceComma (s : jsstring) : jsstring :=
  match s with
  | [] => []
  | c :: s' => if (c =? COMMA)%N then DOT :: s' else c :: replaceComma s'
  end.

Fixpoint readDigits (acc : N) (s : jsstring) : N * jsstring :=
  match s with
  | c :: s' => if isDigit c then readDigits (10 * acc + (c - 48))%N s' else (acc, s)
  | [] => (acc, [])
  end.

Fixpoint readFraction (num : N) (den : positive) (s : jsstring) : N * positive :=
  match s with
  | c :: s' =>
      if isDigit c then readFraction (10 * num + (c - 48))%N (10 * den)%positive s'
      else (num, den)
  | [] => (num, den)
  end.

(** [parseFloat] on the strings that can reach it here: an unsigned
    decimal literal, digits with an optional fraction, read as the longest
    such prefix; a string not starting with a digit gives [NaN]. *)
Definition parseFloat (s : jsstring) : JsNumber :=
  match s with
  | c :: _ =>
      if isDigit c then
        let (int, rest) := readDigits 0%N s in
        match rest with
        | p :: frac =>
            if (p =? DOT)%N then
              let (num, den) := readFraction int 1%positive frac in
              Num (Z.of_N num # den)
            else Num (Z.of_N int # 1)
        | [] => Num (Z.of_N int # 1)
        end
      else NaN
  | [] => NaN
  end.

(** The [note] field: the empty string it is initialised to, or a number. *)
Inductive Note : Type :=
| NoteEmpty
| NoteNumber (x : JsNumber).

(** Lines 53-54: [match ? parseFloat(match[1].replace(',', '.')) : '']. *)
Definition parseNote (text : jsstring) : Note :=
  match matchRating text with
  | Some m => NoteNumber (parseFloat (replaceComma m))
  | None => NoteEmpty
  end.

(** ** The page, as selector queries see it

    The script never walks the tree: it only asks selector queries.  An
    element is what the script reads of it; a review container and the
    document are the answers they give to [querySelector] and
    [querySelectorAll]. *)

Definition selector := string.

Record Element : Type := {
  textContent : jsstring;
  classList : list string
}.

Record Container : Type := {
  querySelector : selector -> option Element
}.

Record Document : Type := {
  querySelectorAll : selector -> list Container;
  documentQuerySelector : selector -> option Element
}.

(** ** Review records (lines 37-46) *)

Record Review : Type := {
  id : nat;
  page : nat;
  note : Note;
  titre : jsstring;
  texte : jsstring;
  date : jsstring;
  auteur : jsstring;
  achat_verifie : bool
}.

(** ** Configuration (lines 10-11, 134) *)

Definition MAX_PAGES : nat := 20.
Definition DELAY_BETWEEN_PAGES : N := 3000.
Definition maxAttempts : nat := 30.
Definition POLL_INTERVAL : N := 1000.

(** ** Field extraction (lines 35-102) *)

(** [for (let sel of sels) { const elem = r.querySelector(sel); if (elem)
    { ...; break; } }]: the element of the first selector that matches. *)
Fixpoint firstMatch (r : Container) (sels : list selector) : option Element :=
  match sels with
  | [] => None
  | sel :: rest =>
      match querySelector r sel with
      | Some elem => Some elem
      | None => firstMatch r rest
      end
  end.

(** The attribute selector [[data-hook="v"]]. *)
Definition dataHook (v : string) : selector :=
  ("[data-hook=" ++ String "034"%char v ++ String "034"%char "]")%string.

Definition ratingSelectors : list selector :=
  [dataHook "review-star-rating"; ".a-icon-alt"; ".review-rating"]%string.
Definition titleSelectors : list selector :=
  [dataHook "review-title"; ".review-title"; "h5"]%string.
Definition textSelectors : list selector :=
  [dataHook "review-body"; ".review-text"; ".review-body"]%string.
Definition authorSelectors : list selector :=
  [".a-profile-name"; ".author"]%string.
Definition reviewSelectors : list selector :=
  [dataHook "review"; ".review"; ".a-section.review"]%string.

(** A text field keeps its initial [''] when no selector matches. *)
Definition textOf (found : option Element) : jsstring :=
  match found with
  | Some elem => cleanText (textContent elem)
  | None => []
  end.

(** Lines 49-57: the first rating element found decides, even when its text
    holds no digit. *)
Definition noteOf (r : Container) : Note :=
  match firstMatch r ratingSelectors with
  | Some elem => parseNote (textContent elem)
  | None => NoteEmpty
  end.

(** A string is truthy when it is not empty. *)
Definition truthy (s : jsstring) : bool :=
  match s with
  | [] => false
  | _ => true
  end.

(** The record assembled for the container at [index] (lines 37-94);
    [count] is [allReviews.length] and [pageNo] is [currentPage]. *)
Definition buildReview (count pageNo index : nat) (r : Container) : Review :=
  {| id := count + index + 1;
     page := pageNo;
     note := noteOf r;
     titre := textOf (firstMatch r titleSelectors);
     texte := textOf (firstMatch r textSelectors);
     date := textOf (querySelector r (dataHook "review-date"));
     auteur := textOf (firstMatch r authorSelectors);
     achat_verifie :=
       match querySelector r (dataHook "avp-badge") with
       | Some _ => true
       | None => false
       end |}.

(** Lines 96-98: the record is pushed when [titre || texte] is truthy.  No
    operation of the callback can throw on an element, so the [catch] of
    lines 99-101 has no case here. *)
Definition extractReview (count pageNo index : nat) (r : Container)
  : option Review :=
  let review := buildReview count pageNo index r in
  if truthy (titre review) || truthy (texte review)
  then Some review
  else None.

(** [reviewElements.forEach((r, index) => ...)], from [index] on. *)
Fixpoint forEachReview (count pageNo index : nat) (rs : list Container)
  : list Review :=
  match rs with
  | [] => []
  | r :: rs' =>
      match extractReview count pageNo index r with
      | Some review => review :: forEachReview count pageNo (S index) rs'
      | None => forEachReview count pageNo (S index) rs'
      end
  end.

(** Lines 26-30: the answer of the first selector that matches anything;
    the empty list when none does. *)
Fixpoint findReviewElements (d : Document) (sels : list selector)
  : list Container :=
  match sels with
  | [] => []
  | sel :: rest =>
      match querySelectorAll d sel with
      | [] => findReviewElements d rest
      | found => found
      end
  end.

(** Lines 107-114. *)
Definition nextButtonSelectors : list selector :=
  ["li.a-last a"; ".a-pagination .a-last a";
   dataHook "pagination-bar" ++ " .a-last a"]%string.

Fixpoint firstInDocument (d : Document) (sels : list selector)
  : option Element :=
  match sels with
  | [] => None
  | sel :: rest =>
      match documentQuerySelector d sel with
      | Some elem => Some elem
      | None => firstInDocument d rest
      end
  end.

Definition contains (classes : list string) (c : string) : bool :=
  existsb (String.eqb c) classes.

Definition hasNextPage (d : Document) : bool :=
  match firstInDocument d nextButtonSelectors with
  | Some nextButton => negb (contains (classList nextButton) "a-disabled")
  | None => false
  end.

(** The test of line 96 on a container, before any record is built. *)
Definition keeps (r : Container) : bool :=
  truthy (textOf (firstMatch r titleSelectors))
  || truthy (textOf (firstMatch r textSelectors)).

(** The number of containers of a page that are not discarded. *)
Definition yield (d : Document) : nat :=
  length (filter keeps (findReviewElements d reviewSelectors)).

(** ** The console

    What the script prints, one constructor per [console.log] call site,
    carrying the values interpolated into the message. *)

Inductive LogEntry : Type :=
| LogDetected (pageNo found : nat)              (* line 32 *)
| LogNavigating (nextPage : nat)                (* line 123 *)
| LogLoaded (pageNo found : nat)                (* line 141 *)
| LogAlreadyRunning                             (* line 155 *)
| LogStart                                      (* lines 160-162 *)
| LogCannotNavigate                             (* line 174 *)
| LogRunningTotal (total : nat)                 (* line 185 *)
| LogPause (ms : N)                             (* line 189 *)
| LogFinished (total pages : nat)               (* lines 195-196 *)
| LogJson (reviews : list Review)               (* lines 197-200 *)
| LogStatsTotal (total : nat)                   (* lines 208-209 *)
| LogStatsNotes (noteStats : list (Note * nat)) (* line 210 *)
| LogStatsVerified (verified total : nat)       (* line 211 *)
| LogError (error : jsstring).                  (* line 214 *)

(** The pages on which an extraction ran, in order: one [LogDetected] is
    printed by each call of the extractor. *)
Fixpoint detectedPages (entries : list LogEntry) : list nat :=
  match entries with
  | [] => []
  | LogDetected pageNo _ :: rest => pageNo :: detectedPages rest
  | _ :: rest => detectedPages rest
  end.

(** The entries that report a failure: the [break] of line 175 and the
    [catch] of line 214. *)
Definition isFailure (entry : LogEntry) : bool :=
  match entry with
  | LogCannotNavigate => true
  | LogError _ => true
  | _ => false
  end.

(** ** Statistics (lines 203-211) *)

Definition JsNumber_eqb (x y : JsNumber) : bool :=
  match x, y with
  | NaN, NaN => true
  | Num p, Num q => Qeq_bool p q
  | _, _ => false
  end.

(** Two notes name the same property of [noteStats] when they print the
    same. *)
Definition Note_eqb (a b : Note) : bool :=
  match a, b with
  | NoteEmpty, NoteEmpty => true
  | NoteNumber x, NoteNumber y => JsNumber_eqb x y
  | _, _ => false
  end.

(** [noteStats[k] = (noteStats[k] || 0) + 1]. *)
Fixpoint bump (k : Note) (stats : list (Note * nat)) : list (Note * nat) :=
  match stats with
  | [] => [(k, 1)]
  | (k', n) :: rest =>
      if Note_eqb k k' then (k', n + 1) :: rest else (k', n) :: bump k rest
  end.

Definition noteStatsOf (reviews : list Review) : list (Note * nat) :=
  fold_left (fun stats review => bump (note review) stats) reviews [].

(** [allReviews.filter(r => r.achat_verifie).length]. *)
Definition verifiedCount (reviews : list Review) : nat :=
  length (filter achat_verifie reviews).

(** Decimal digits of a number, as template literals print it. *)
Definition decimal (n : nat) : jsstring :=
  js (DecimalString.NilZero.string_of_uint (Nat.to_uint n)).

(** The text of line 211:
    [`Avis vérifiés: ${verified}/${total}`]. *)
Definition verifiedLine (verified total : nat) : jsstring :=
  js "Avis v" ++ [233%N] ++ js "rifi" ++ [233%N] ++ js "s: "
     ++ decimal verified ++ js "/" ++ decimal total.

(** ** The rendering surface

    The browser, seen from the script: the document shown now, what
    activating the "next" control does, and what the passing of [ms]
    milliseconds on a timer does.  Navigation is asynchronous, so the new
    page may appear at the click or only after some time has passed. *)

Class Surface (W : Type) : Type := {
  document : W -> Document;
  click : W -> W;
  elapse : N -> W -> W
}.

(** ** Run state (lines 4-7), with the surface and the console *)

Record State (W : Type) : Type := mkState {
  allReviews : list Review;
  currentPage : nat;
  totalPages : nat;
  isProcessing : bool;
  surface : W;
  console : list LogEntry
}.

Arguments mkState {W}.
Arguments allReviews {W}.
Arguments currentPage {W}.
Arguments totalPages {W}.
Arguments isProcessing {W}.
Arguments surface {W}.
Arguments console {W}.

(** The globals as the script's top level leaves them. *)
Definition loaded {W : Type} (w : W) : State W :=
  mkState [] 1 1 false w [].

(** How a block of statements ends. *)
Inductive Completion (A : Type) : Type :=
| Normal (a : A)
| Thrown (error : jsstring) (a : A).

Arguments Normal {A}.
Arguments Thrown {A}.

Section Driver.

Context {W : Type} {browser : Surface W}.

Definition log (entry : LogEntry) (s : State W) : State W :=
  mkState (allReviews s) (currentPage s) (totalPages s) (isProcessing s)
          (surface s) (console s ++ [entry]).

Definition setAllReviews (reviews : list Review) (s : State W) : State W :=
  mkState reviews (currentPage s) (totalPages s) (isProcessing s)
          (surface s) (console s).

Definition setCurrentPage (n : nat) (s : State W) : State W :=
  mkState (allReviews s) n (totalPages s) (isProcessing s)
          (surface s) (console s).

Definition setIsProcessing (b : bool) (s : State W) : State W :=
  mkState (allReviews s) (currentPage s) (totalPages s) b
          (surface s) (console s).

Definition setSurface (w : W) (s : State W) : State W :=
  mkState (allReviews s) (currentPage s) (totalPages s) (isProcessing s)
          w (console s).

(** A timer of [ms] milliseconds fires. *)
Definition sleep (ms : N) (s : State W) : State W :=
  setSurface (elapse ms (surface s)) s.

(** [function extractReviewsFromCurrentPage()] (lines 19-105). *)
Definition extractReviewsFromCurrentPage (s : State W)
  : list Review * State W :=
  let reviewElements :=
    findReviewElements (document (surface s)) reviewSelectors in
  let s1 := log (LogDetected (currentPage s) (length reviewElements)) s in
  (forEachReview (length (allReviews s)) (currentPage s) 0 reviewElements, s1).

(** [function goToNextPage()] (lines 117-128). *)
Definition goToNextPage (s : State W) : bool * State W :=
  match firstInDocument (document (surface s)) nextButtonSelectors with
  | Some nextButton =>
      if negb (contains (classList nextButton) "a-disabled")
      then
        let s1 := log (LogNavigating (currentPage s + 1)) s in
        (true, setSurface (click (surface s1)) s1)
      else (false, s)
  | None => (false, s)
  end.

(** [checkLoaded] (lines 136-146), entered when its timer fires;
    [attempts] is the counter before the call.  The result carries the
    counter at the moment the promise resolves. *)
Fixpoint checkLoaded (fuel attempts : nat) (s : State W)
  : option (nat * State W) :=
  match fuel with
  | 0 => None
  | S fuel' =>
      let attempts1 := attempts + 1 in
      let reviewElements :=
        querySelectorAll (document (surface s)) (dataHook "review") in
      if (0 <? length reviewElements) || (maxAttempts <=? attempts1)
      then Some (attempts1,
                 log (LogLoaded (currentPage s) (length reviewElements)) s)
      else checkLoaded fuel' attempts1 (sleep POLL_INTERVAL s)
  end.

(** [function waitForPageLoad()] (lines 131-150): the first check runs
    after one interval. *)
Definition waitForPageLoad (s : State W) : option (nat * State W) :=
  checkLoaded maxAttempts 0 (sleep POLL_INTERVAL s).

(** The loop condition of lines 170 and 188. *)
Definition morePages (s : State W) : bool :=
  hasNextPage (document (surface s)) && (currentPage s <? MAX_PAGES).

(** Lines 182-191: extraction of the page just loaded and the pause. *)
Definition extractAndPause (s : State W) : State W :=
  let (pageReviews, s1) := extractReviewsFromCurrentPage s in
  let s2 := setAllReviews (allReviews s1 ++ pageReviews) s1 in
  let s3 := log (LogRunningTotal (length (allReviews s2))) s2 in
  if morePages s3
  then sleep DELAY_BETWEEN_PAGES (log (LogPause DELAY_BETWEEN_PAGES) s3)
  else s3.

(** One turn of the loop, lines 171-191; [false] stands for the [break]
    of line 175. *)
Definition loopBody (s : State W) : option (bool * State W) :=
  let s1 := setCurrentPage (currentPage s + 1) s in
  let (moved, s2) := goToNextPage s1 in
  if negb moved then Some (false, log LogCannotNavigate s2)
  else
    match waitForPageLoad s2 with
    | Some (_, s3) => Some (true, extractAndPause s3)
    | None => None
    end.

(** The [while] loop of lines 170-192.  [fuel] bounds the number of
    turns; [None] means the bound was too small. *)
Fixpoint pageLoop (fuel : nat) (s : State W) : option (State W) :=
  if morePages s then
    match fuel with
    | 0 => None
    | S fuel' =>
        match loopBody s with
        | Some (true, s1) => pageLoop fuel' s1
        | Some (false, s1) => Some s1
        | None => None
        end
    end
  else Some s.

(** Lines 194-211: the final report. *)
Definition report (s : State W) : State W :=
  let s1 := log (LogFinished (length (allReviews s)) (currentPage s)) s in
  let s2 := log (LogJson (allReviews s1)) s1 in
  let s3 := log (LogStatsTotal (length (allReviews s2))) s2 in
  let s4 := log (LogStatsNotes (noteStatsOf (allReviews s3))) s3 in
  log (LogStatsVerified (verifiedCount (allReviews s4))
                        (length (allReviews s4))) s4.

(** The [try] block (lines 164-212). *)
Definition tryBlock (s : State W) : option (State W) :=
  let (firstPageReviews, s1) := extractReviewsFromCurrentPage s in
  let s2 := setAllReviews (allReviews s1 ++ firstPageReviews) s1 in
  match pageLoop MAX_PAGES s2 with
  | Some s3 => Some (report s3)
  | None => None
  end.

(** The frame around the [try] block: the guard of lines 154-157, the flag
    of line 159, and [catch]/[finally] of lines 213-217, for any way the
    block may end. *)
Definition guarded (block : State W -> option (Completion (State W)))
  (s : State W) : option (State W) :=
  if isProcessing s then Some (log LogAlreadyRunning s)
  else
    let s1 := log LogStart (setIsProcessing true s) in
    match block s1 with
    | Some (Normal s2) => Some (setIsProcessing false s2)
    | Some (Thrown error s2) =>
        Some (setIsProcessing false (log (LogError error) s2))
    | None => None
    end.

(** [async function processAllPages()] (lines 153-218).  On this surface
    no statement of the block throws, so the block ends normally. *)
Definition processAllPages (s : State W) : option (State W) :=
  guarded (fun s1 => option_map Normal (tryBlock s1)) s.

(** [function scrapCurrentPageOnly()] (lines 221-230). *)
Definition scrapCurrentPageOnly (s : State W) : list Review * State W :=
  extractReviewsFromCurrentPage s.

End Driver.

(** ** A site whose pages do not change by themselves

    The document shown changes only when the "next" control is activated,
    and the next page is there as soon as it is.  [later] holds the pages
    still to come. *)

Record Site : Type := {
  shown : Document;
  later : list Document
}.

Definition siteClick (w : Site) : Site :=
  match later w with
  | [] => w
  | d :: ds => {| shown := d; later := ds |}
  end.

#[export] Instance StaticSite : Surface Site := {
  document := shown;
  click := siteClick;
  elapse := fun _ w => w
}.

(** A site whose next page takes [delay] timer ticks to replace the page
    shown. *)
Record SlowSite : Type := {
  visible : Document;
  arriving : option (nat * Document)
}.

Definition slowElapse (w : SlowSite) : SlowSite :=
  match arriving w with
  | Some (0, d) => {| visible := d; arriving := None |}
  | Some (S k, d) => {| visible := visible w; arriving := Some (k, d) |}
  | None => w
  end.

#[export] Instance SlowSurface : Surface SlowSite := {
  document := visible;
  click := fun w => w;
  elapse := fun _ w => slowElapse w
}.

(** ** Sample pages *)

Definition element (text : jsstring) : Element :=
  {| textContent := text; classList := [] |}.

(** A container in the first markup variant: title, body, and optionally a
    rating and the verified-purchase badge. *)
Definition sampleReview (title body : jsstring) (rating : option jsstring)
  (badge : bool) : Container :=
  {| querySelector := fun sel =>
       if String.eqb sel (dataHook "review-title") then Some (element title)
       else if String.eqb sel (dataHook "review-body") then Some (element body)
       else if String.eqb sel (dataHook "review-star-rating")
            then option_map element rating
       else if String.eqb sel (dataHook "avp-badge")
            then (if badge then Some (element []) else None)
       else None |}.

(** A page showing [containers], with an enabled "next" control when
    [next] is set. *)
Definition samplePage (containers : list Container) (next : bool) : Document :=
  {| querySelectorAll := fun sel =>
       if String.eqb sel (dataHook "review") then containers else [];
     documentQuerySelector := fun sel =>
       if next && String.eqb sel "li.a-last a" then Some (element [])
       else None |}.

Definition good : Container :=
  sampleReview (js "Super") (js "Tres  bien ") (Some (js "4,5 sur 5")) true.

Definition blank : Container :=
  sampleReview (js "  ") [] (Some (js "5,0 sur 5")) false.

Definition dotted : Container :=
  sampleReview (js "Great") (js "Works") (Some (js "4.5")) false.

(** Four pages with 3, 5, 0 and 2 reviews, the last one without a "next"
    control. *)
Definition fourPages : Site :=
  {| shown := samplePage [good; good; good] true;
     later := [samplePage [good; good; good; good; good] true;
               samplePage [] true;
               samplePage [good; good] false] |}.

(** Two pages, the first of which starts with a container that is
    discarded. *)
Definition twoPages : Site :=
  {| shown := samplePage [blank; good; good] true;
     later := [samplePage [good] false] |}.

(** One page without any review. *)
Definition emptySite : Site :=
  {| shown := samplePage [] false; later := [] |}.

(** A site on which the "next" control never goes away. *)
Definition endless : Site :=
  {| shown := samplePage [good] true; later := [] |}.

(** A page that is empty now and shows one review after three timer
    ticks. *)
Definition slowPage : SlowSite :=
  {| visible := samplePage [] false;
     arriving := Some (2, samplePage [good] false) |}.


(** ** Vocabulary of the statements *)

(** No code unit of [text] is a digit. *)
Definition noDigit (text : jsstring) : bool :=
  forallb (fun c => negb (isDigit c)) text.

(** [pattern] occurs somewhere in [text]. *)
Definition occursIn (pattern text : jsstring) : Prop :=
  exists before after, text = before ++ pattern ++ after.

(** The surface after [k] poll intervals. *)
Definition polls {W : Type} {browser : Surface W} (k : nat) (w : W) : W :=
  Nat.iter k (elapse POLL_INTERVAL) w.

(** What the poll of line 138 sees. *)
Definition reviewsShown {W : Type} {browser : Surface W} (w : W)
  : list Container :=
  querySelectorAll (document w) (dataHook "review").

(** A record carries a title or a body. *)
Definition hasContent (review : Review) : Prop :=
  titre review <> [] \/ texte review <> [].

(** The records are numbered 1, 2, 3, ... in order. *)
Definition numbered (reviews : list Review) : Prop :=
  map id reviews = seq 1 (length reviews).

(** No entry reports a failure. *)
Definition quiet (entries : list LogEntry) : bool :=
  forallb (fun entry => negb (isFailure entry)) entries.

(** The state after the first extraction of a run (lines 166-167). *)
Definition firstPage {W : Type} {browser : Surface W} (s : State W)
  : State W :=
  let (firstPageReviews, s1) := extractReviewsFromCurrentPage s in
  setAllReviews (allReviews s1 ++ firstPageReviews) s1.

(** On a static site: the pages to come end with one that has no "next"
    control, and every page before it has one. *)
Fixpoint chain (d : Document) (ds : list Document) : Prop :=
  match ds with
  | [] => hasNextPage d = false
  | d' :: ds' => hasNextPage d = true /\ chain d' ds'
  end.

(** The [page] fields expected from pages [ds], numbered from [pageNo]. *)
Fixpoint pageMarks (pageNo : nat) (ds : list Document) : list nat :=
  match ds with
  | [] => []
  | d :: ds' => repeat pageNo (yield d) ++ pageMarks (S pageNo) ds'
  end.

(** The surfaces that clicks and timers can lead to from [w0]. *)
Inductive reachable {W : Type} {browser : Surface W} (w0 : W) : W -> Prop :=
| reach_start : reachable w0 w0
| reach_click (w : W) : reachable w0 w -> reachable w0 (click w)
| reach_elapse (ms : N) (w : W) : reachable w0 w -> reachable w0 (elapse ms w).

(** The run on [twoPages] at its first [await]: the first page has been
    extracted, the "next" control activated, and the wait for the second
    page is about to start (line 179). *)
Definition awaitingSecondPage : State Site :=
  let s := firstPage (log LogStart (setIsProcessing true (loaded twoPages))) in
  setSurface (click (surface s))
    (log (LogNavigating (currentPage s + 1 + 1))
       (setCurrentPage (currentPage s + 1) s)).

(** ** Vocabulary of the further statements *)

(** Every code unit of [s] is white space. *)
Definition allWhite (s : jsstring) : bool := forallb isWhiteSpace s.

(** The code units of [s] that are not white space, in order. *)
Definition inked (s : jsstring) : jsstring :=
  filter (fun c => negb (isWhiteSpace c)) s.

(** Every white space of [s] is one space that does not follow another
    white space; [prev] tells that a white space comes just before [s]. *)
Fixpoint singleSpaced (prev : bool) (s : jsstring) : bool :=
  match s with
  | [] => true
  | c :: s' =>
      if isWhiteSpace c
      then negb prev && (c =? SPACE)%N && singleSpaced true s'
      else singleSpaced false s'
  end.

(** A normalised text: no white space at either end, and inside only
    single spaces. *)
Definition tidy (s : jsstring) : Prop :=
  (forall c rest, s = c :: rest -> isWhiteSpace c = false)
  /\ (forall front c, s = front ++ [c] -> isWhiteSpace c = false)
  /\ (forall c, In c s -> isWhiteSpace c = true -> c = SPACE)
  /\ (forall front a b back,
        s = front ++ a :: b :: back ->
        isWhiteSpace a = true -> isWhiteSpace b = false).

(** The value of a digit. *)
Definition digitValue (c : N) : Z := Z.of_N (c - 48).

(** [noteStats[k] || 0]: the count filed under the key of [k]. *)
Fixpoint statOf (k : Note) (stats : list (Note * nat)) : nat :=
  match stats with
  | [] => 0
  | (k', n) :: rest => if Note_eqb k k' then n else statOf k rest
  end.

(** The number of records whose note has the key of [k]. *)
Definition rated (k : Note) (reviews : list Review) : nat :=
  length (filter (fun review => Note_eqb (note review) k) reviews).

(** A page in a markup variant that only the second container selector
    matches. *)
Definition variantPage (containers : list Container) : Document :=
  {| querySelectorAll := fun sel =>
       if String.eqb sel ".review" then containers else [];
     documentQuerySelector := fun _ => None |}.

Definition variantSite : Site :=
  {| shown := variantPage [good; good]; later := [] |}.

(** A container whose title and body are there but hold white space
    only. *)
Definition hollow : Container :=
  sampleReview [9%N; 32%N; 160%N] [10%N; 8239%N] None true.

(** The four text fields of a record are normalised. *)
Definition tidyRecord (review : Review) : Prop :=
  tidy (titre review) /\ tidy (texte review)
  /\ tidy (date review) /\ tidy (auteur review).

(** A title or body element that is missing or holds white space only. *)
Definition blankField (found : option Element) : bool :=
  match found with
  | Some elem => allWhite (textContent elem)
  | None => true
  end.

(** ** Single-page mode, with all it prints

    [scrapCurrentPageOnly] above gives what the function returns and does
    to the run state.  Here its own messages are added: they go around
    those of the extractor it calls. *)

Module SinglePage.

Inductive Line : Type :=
| Banner                          (* line 222 *)
| Extractor (entry : LogEntry)    (* printed inside the call of line 223 *)
| Count (extracted : nat)         (* line 225 *)
| Json (reviews : list Review).   (* lines 226-227 *)

(** The entries that a call added to the console. *)
Definition added (before after : list LogEntry) : list LogEntry :=
  skipn (length before) after.

(** [function scrapCurrentPageOnly()] (lines 221-230): the records
    returned, the state left, and the lines printed by the call. *)
Definition scrapCurrentPageOnly {W : Type} {browser : Surface W}
  (s : State W) : list Review * State W * list Line :=
  let (reviews, s1) := extractReviewsFromCurrentPage s in
  (reviews, s1,
   [Banner] ++ map Extractor (added (console s) (console s1))
            ++ [Count (length reviews); Json reviews]).

End SinglePage.

(** ** Vocabulary of the statements on whole runs *)

(** The number of containers found by the extractions so far: the sum of
    the counts that [LogDetected] entries carry. *)
Fixpoint detectedTotal (entries : list LogEntry) : nat :=
  match entries with
  | [] => 0
  | LogDetected _ found :: rest => found + detectedTotal rest
  | _ :: rest => detectedTotal rest
  end.

(** The page numbers announced by [goToNextPage], in order. *)
Fixpoint navigations (entries : list LogEntry) : list nat :=
  match entries with
  | [] => []
  | LogNavigating nextPage :: rest => nextPage :: navigations rest
  | _ :: rest => navigations rest
  end.

(** [travelled w0 n w]: [w] is what [w0] has become after [n] activations
    of the "next" control, with any timers in between. *)
Inductive travelled {W : Type} {browser : Surface W} (w0 : W)
  : nat -> W -> Prop :=
| travel_start : travelled w0 0 w0
| travel_click (n : nat) (w : W) :
    travelled w0 n w -> travelled w0 (S n) (click w)
| travel_elapse (n : nat) (ms : N) (w : W) :
    travelled w0 n w -> travelled w0 n (elapse ms w).

(** The state that a turn of the loop leaves when its wait took
    [attempts] polls: lines 171-191 written out. *)
Definition turnResult {W : Type} {browser : Surface W} (s : State W)
  (attempts : nat) : State W :=
  let arrived := polls attempts (click (surface s)) in
  let found := findReviewElements (document arrived) reviewSelectors in
  let records :=
    allReviews s
    ++ forEachReview (length (allReviews s)) (currentPage s + 1) 0 found in
  let due := hasNextPage (document arrived)
             && (currentPage s + 1 <? MAX_PAGES) in
  mkState records (currentPage s + 1) (totalPages s) (isProcessing s)
    (if due then elapse DELAY_BETWEEN_PAGES arrived else arrived)
    (console s
     ++ [LogNavigating (currentPage s + 1 + 1);
         LogLoaded (currentPage s + 1) (length (reviewsShown arrived));
         LogDetected (currentPage s + 1) (length found);
         LogRunningTotal (length records)]
     ++ (if due then [LogPause DELAY_BETWEEN_PAGES] else [])).

(** ** A site whose pages arrive late

    The page asked for by a click replaces the one on screen only [lag]
    milliseconds later; until then the old page stays. *)

Record LaggingSite : Type := {
  onScreen : Document;
  incoming : option (N * Document);
  queued : list Document;
  lag : N
}.

Definition laggingClick (w : LaggingSite) : LaggingSite :=
  match queued w with
  | [] => w
  | d :: ds =>
      {| onScreen := onScreen w; incoming := Some (lag w, d);
         queued := ds; lag := lag w |}
  end.

Definition laggingElapse (ms : N) (w : LaggingSite) : LaggingSite :=
  match incoming w with
  | Some (remaining, d) =>
      if (remaining <=? ms)%N
      then {| onScreen := d; incoming := None;
              queued := queued w; lag := lag w |}
      else {| onScreen := onScreen w; incoming := Some ((remaining - ms)%N, d);
              queued := queued w; lag := lag w |}
  | None => w
  end.

#[export] Instance LaggingSurface : Surface LaggingSite := {
  document := onScreen;
  click := laggingClick;
  elapse := laggingElapse
}.

(** [w] shows the first page of [pages] with nothing on its way, the
    others are still to come, and pages arrive within a poll interval. *)
Definition settled (w : LaggingSite) (pages : list Document) : Prop :=
  incoming w = None /\ onScreen w :: queued w = pages
  /\ (lag w <= POLL_INTERVAL)%N.

(** The four pages of [fourPages]. *)
Definition pageOfThree : Document := samplePage [good; good; good] true.
Definition pageOfFive : Document :=
  samplePage [good; good; good; good; good] true.
Definition pageOfNone : Document := samplePage [] true.
Definition pageOfTwo : Document := samplePage [good; good] false.

(** The four pages, each arriving 500 ms after the click. *)
Definition promptSite : LaggingSite :=
  {| onScreen := pageOfThree; incoming := None;
     queued := [pageOfFive; pageOfNone; pageOfTwo]; lag := 500 |}.

(** The four pages, each arriving 1500 ms after the click. *)
Definition lateSite : LaggingSite :=
  {| onScreen := pageOfThree; incoming := None;
     queued := [pageOfFive; pageOfNone; pageOfTwo]; lag := 1500 |}.

(** A static site of 25 pages of one review each; the last one has no
    "next" control. *)
Definition longSite : Site :=
  {| shown := samplePage [good] true;
     later := repeat (samplePage [good] true) 23
              ++ [samplePage [good] false] |}.

(** * Properties *)

(** ** Text normalisation and rating text *)

Example cleanText_sample :
  cleanText (js "  Tres   bien ") = js "Tres bien".
Proof. reflexivity. Qed.

Example parseNote_comma : parseNote (js "4,5 sur 5") = NoteNumber (Num 4.5).
Proof. reflexivity. Qed.

Example parseNote_dot : parseNote (js "4.5 out of 5") = NoteNumber (Num 4).
Proof. reflexivity. Qed.

Lemma matchRating_skip (before rest : jsstring) :
  noDigit before = true -> matchRating (before ++ rest) = matchRating rest.
Proof.
  induction before as [|c before IH]; simpl; intros H; [reflexivity|].
  apply andb_true_iff in H as [Hc Hrest].
  apply negb_true_iff in Hc. rewrite Hc. now apply IH.
Qed.

Lemma matchRating_noDigit (text : jsstring) :
  noDigit text = true -> matchRating text = None.
Proof.
  intros H. rewrite <- (app_nil_r text). now rewrite matchRating_skip.
Qed.

Lemma parseNote_noDigit (text : jsstring) :
  noDigit text = true -> parseNote text = NoteEmpty.
Proof.
  intros H. unfold parseNote. now rewrite matchRating_noDigit.
Qed.

Lemma parseNote_comma_decimal (before after : jsstring) :
  noDigit before = true ->
  parseNote (before ++ js "4,5" ++ after) = NoteNumber (Num 4.5).
Proof.
  intros H. unfold parseNote. rewrite matchRating_skip by assumption.
  reflexivity.
Qed.

Lemma parseNote_dot_decimal (before after : jsstring) :
  noDigit before = true ->
  parseNote (before ++ js "4.5" ++ after) = NoteNumber (Num 4).
Proof.
  intros H. unfold parseNote. rewrite matchRating_skip by assumption.
  reflexivity.
Qed.

(** What the pattern can capture never makes [parseFloat] fail. *)
Lemma parseNote_never_NaN (text : jsstring) :
  parseNote text <> NoteNumber NaN.
Proof.
  unfold parseNote. induction text as [|c rest IH]; simpl; [discriminate|].
  destruct (isDigit c) eqn:Hc; [|exact IH].
  assert (Hcomma : (c =? COMMA)%N = false).
  { unfold isDigit in Hc. apply andb_true_iff in Hc as [Hlo _].
    apply N.leb_le in Hlo. apply N.eqb_neq. unfold COMMA. lia. }
  assert (Hone : parseFloat (replaceComma [c]) <> NaN).
  { simpl. rewrite Hcomma. simpl. rewrite Hc.
    destruct (readDigits 0 [c]) as [int tail] eqn:Hread.
    simpl in Hread. rewrite Hc in Hread. simpl in Hread.
    injection Hread as <- <-. discriminate. }
  destruct rest as [|k [|d tail]]; try (intros E; injection E; exact Hone).
  destruct ((k =? COMMA)%N && isDigit d) eqn:Hkd;
    [|intros E; injection E; exact Hone].
  apply andb_true_iff in Hkd as [Hk Hd].
  simpl. rewrite Hcomma, Hk. simpl. rewrite Hc. simpl.
  rewrite Hd. discriminate.
Qed.

(** ** One container *)

Lemma truthy_false (s : jsstring) : truthy s = false <-> s = [].
Proof. destruct s; simpl; split; congruence. Qed.

Lemma truthy_true (s : jsstring) : truthy s = true <-> s <> [].
Proof. destruct s; simpl; split; congruence. Qed.

Lemma extractReview_keeps (count pageNo index : nat) (r : Container) :
  extractReview count pageNo index r =
  if keeps r then Some (buildReview count pageNo index r) else None.
Proof. reflexivity. Qed.

Lemma extractReview_Some (count pageNo index : nat) (r : Container)
  (review : Review) :
  extractReview count pageNo index r = Some review ->
  review = buildReview count pageNo index r
  /\ (titre review <> [] \/ texte review <> []).
Proof.
  unfold extractReview. cbv zeta.
  destruct (truthy (titre (buildReview count pageNo index r))
            || truthy (texte (buildReview count pageNo index r))) eqn:Hk;
    [|discriminate].
  intros E. injection E as <-. split; [reflexivity|].
  apply orb_true_iff in Hk as [Hk|Hk]; apply truthy_true in Hk; auto.
Qed.

Lemma extractReview_None (count pageNo index : nat) (r : Container) :
  titre (buildReview count pageNo index r) = [] ->
  texte (buildReview count pageNo index r) = [] ->
  extractReview count pageNo index r = None.
Proof.
  intros Ht Hb. unfold extractReview. cbv zeta. now rewrite Ht, Hb.
Qed.

(** ** One page *)

Lemma forEachReview_In (count pageNo : nat) (rs : list Container) :
  forall index review,
    In review (forEachReview count pageNo index rs) ->
    exists k r,
      nth_error rs k = Some r
      /\ extractReview count pageNo (index + k) r = Some review.
Proof.
  induction rs as [|r rs IH]; simpl; intros index review Hin; [contradiction|].
  destruct (extractReview count pageNo index r) as [rv|] eqn:Hx.
  - destruct Hin as [<-|Hin].
    + exists 0, r. rewrite Nat.add_0_r. auto.
    + destruct (IH _ _ Hin) as (k & r' & Hk & Hr').
      exists (S k), r'. rewrite Nat.add_succ_r. auto.
  - destruct (IH _ _ Hin) as (k & r' & Hk & Hr').
    exists (S k), r'. rewrite Nat.add_succ_r. auto.
Qed.

Lemma forEachReview_id_lower (count pageNo : nat) (rs : list Container) :
  forall index review,
    In review (forEachReview count pageNo index rs) ->
    count + index + 1 <= id review.
Proof.
  intros index review Hin.
  destruct (forEachReview_In _ _ _ _ _ Hin) as (k & r & _ & Hx).
  apply extractReview_Some in Hx as [-> _]. simpl. lia.
Qed.

Lemma forEachReview_ids_NoDup (count pageNo : nat) (rs : list Container) :
  forall index, NoDup (map id (forEachReview count pageNo index rs)).
Proof.
  induction rs as [|r rs IH]; simpl; intros index; [constructor|].
  destruct (extractReview count pageNo index r) as [rv|] eqn:Hx; [|apply IH].
  simpl. constructor; [|apply IH].
  apply extractReview_Some in Hx as [-> _]. simpl.
  intros Hin. apply in_map_iff in Hin as (rv' & Hid & Hin').
  apply forEachReview_id_lower in Hin'. lia.
Qed.

Lemma forEachReview_page (count pageNo : nat) (rs : list Container) :
  forall index,
    map page (forEachReview count pageNo index rs)
    = repeat pageNo (length (filter keeps rs)).
Proof.
  induction rs as [|r rs IH]; simpl; intros index; [reflexivity|].
  rewrite extractReview_keeps. destruct (keeps r); simpl; now rewrite IH.
Qed.

Lemma forEachReview_length (count pageNo : nat) (rs : list Container) :
  forall index,
    length (forEachReview count pageNo index rs) = length (filter keeps rs).
Proof.
  intros index. rewrite <- (length_map page), forEachReview_page.
  apply repeat_length.
Qed.

Lemma forEachReview_all_kept (count pageNo : nat) (rs : list Container) :
  Forall (fun r => keeps r = true) rs ->
  forall index,
    map id (forEachReview count pageNo index rs)
    = seq (count + index + 1) (length rs).
Proof.
  induction 1 as [|r rs Hr _ IH]; simpl; intros index; [reflexivity|].
  rewrite extractReview_keeps, Hr. simpl. rewrite IH.
  f_equal. f_equal. lia.
Qed.

Lemma forEachReview_nonempty (count pageNo : nat) (rs : list Container) :
  forall index,
    Forall (fun review => titre review <> [] \/ texte review <> [])
           (forEachReview count pageNo index rs).
Proof.
  intros index. apply Forall_forall. intros review Hin.
  destruct (forEachReview_In _ _ _ _ _ Hin) as (k & r & _ & Hx).
  now apply extractReview_Some in Hx.
Qed.

(** ** C1: the rating of a container *)

(** C1, as the code has it.  The rating of a record comes from the first
    rating element found in its container.  When the text of that element
    has "4,5" at its first digit, the rating is 4.5; when it has "4.5"
    there, the rating is 4, for only a comma is read as a decimal
    separator; when the text has no digit, or no rating element is found,
    the rating stays the empty default and nothing fails. *)
Theorem rating_of_container (count pageNo index : nat) (r : Container) :
  (firstMatch r ratingSelectors = None ->
   note (buildReview count pageNo index r) = NoteEmpty)
  /\ (forall elem,
        firstMatch r ratingSelectors = Some elem ->
        noDigit (textContent elem) = true ->
        note (buildReview count pageNo index r) = NoteEmpty)
  /\ (forall elem before after,
        firstMatch r ratingSelectors = Some elem ->
        noDigit before = true ->
        (textContent elem = before ++ js "4,5" ++ after ->
         note (buildReview count pageNo index r) = NoteNumber (Num 4.5))
        /\ (textContent elem = before ++ js "4.5" ++ after ->
            note (buildReview count pageNo index r) = NoteNumber (Num 4))).
Proof.
  change (note (buildReview count pageNo index r)) with (noteOf r).
  unfold noteOf. split; [|split].
  - intros ->. reflexivity.
  - intros elem -> Hno. now apply parseNote_noDigit.
  - intros elem before after -> Hno. split; intros ->.
    + now apply parseNote_comma_decimal.
    + now apply parseNote_dot_decimal.
Qed.

Lemma rating_of_container_witness :
  note (buildReview 0 1 0 good) = NoteNumber (Num 4.5)
  /\ note (buildReview 0 1 0 dotted) = NoteNumber (Num 4).
Proof.
  split.
  - destruct (rating_of_container 0 1 0 good) as (_ & _ & H).
    apply (H (element (js "4,5 sur 5")) [] (js " sur 5")); reflexivity.
  - destruct (rating_of_container 0 1 0 dotted) as (_ & _ & H).
    apply (H (element (js "4.5")) [] []); reflexivity.
Defined.

(** C1 as stated fails: the text "4.5" contains "4.5" and its rating is 4,
    which is not 4.5. *)
Lemma dot_decimal_not_read :
  ~ (forall text : jsstring,
       occursIn (js "4,5") text \/ occursIn (js "4.5") text ->
       exists q, parseNote text = NoteNumber (Num q) /\ (q == 4.5)%Q).
Proof.
  intros H.
  destruct (H (js "4.5")) as (q & Hq & Heq).
  - right. exists [], []. reflexivity.
  - vm_compute in Hq. injection Hq as <-. vm_compute in Heq. discriminate.
Qed.

(** ** The driver, on any surface *)

#[local] Arguments Nat.leb : simpl never.
#[local] Arguments Nat.ltb : simpl never.

Section DriverFacts.

Context {W : Type} {browser : Surface W}.

Implicit Types s : State W.

Lemma setSurface_same s : setSurface (surface s) s = s.
Proof. now destruct s. Qed.

Lemma extract_fst s :
  fst (extractReviewsFromCurrentPage s)
  = forEachReview (length (allReviews s)) (currentPage s) 0
      (findReviewElements (document (surface s)) reviewSelectors).
Proof. reflexivity. Qed.

Lemma extract_snd s :
  snd (extractReviewsFromCurrentPage s)
  = log (LogDetected (currentPage s)
           (length (findReviewElements (document (surface s)) reviewSelectors)))
        s.
Proof. reflexivity. Qed.

(** *** The wait for the page *)

Lemma checkLoaded_spec (fuel : nat) :
  forall attempts s,
    attempts < maxAttempts ->
    maxAttempts <= attempts + fuel ->
    exists k s',
      checkLoaded fuel attempts s = Some (attempts + S k, s')
      /\ attempts + S k <= maxAttempts
      /\ s' = log (LogLoaded (currentPage s)
                     (length (reviewsShown (polls k (surface s)))))
                  (setSurface (polls k (surface s)) s)
      /\ (forall j, j < k -> reviewsShown (polls j (surface s)) = [])
      /\ (reviewsShown (polls k (surface s)) <> []
          \/ attempts + S k = maxAttempts).
Proof.
  induction fuel as [|fuel IH]; intros attempts s Hlt Hfuel; [lia|].
  cbn [checkLoaded].
  destruct ((0 <? length (querySelectorAll (document (surface s))
                                            (dataHook "review")))
            || (maxAttempts <=? attempts + 1)) eqn:Hdone.
  - exists 0, (log (LogLoaded (currentPage s)
                      (length (reviewsShown (surface s)))) s).
    split; [now rewrite Nat.add_1_r|].
    split; [lia|]. unfold polls. simpl. rewrite setSurface_same.
    split; [reflexivity|]. split; [intros j Hj; lia|].
    apply orb_true_iff in Hdone as [Hsome|Hmax].
    + left. apply Nat.ltb_lt in Hsome. unfold reviewsShown.
      intros E. rewrite E in Hsome. simpl in Hsome. lia.
    + right. apply Nat.leb_le in Hmax. lia.
  - apply orb_false_iff in Hdone as [Hnone Hmax].
    apply Nat.ltb_ge in Hnone. apply Nat.leb_gt in Hmax.
    destruct (IH (attempts + 1) (sleep POLL_INTERVAL s)) as
      (k & s' & Hrun & Hbound & Hs' & Hbefore & Hlast); [lia|lia|].
    assert (Hshift : forall j,
               polls j (surface (sleep POLL_INTERVAL s))
               = polls (S j) (surface s)).
    { intros j. unfold polls. simpl surface. now rewrite Nat.iter_succ_r. }
    exists (S k), s'. rewrite Hrun. rewrite Hshift in Hs', Hlast.
    split; [f_equal; f_equal; lia|]. split; [lia|].
    split; [exact Hs'|]. split.
    + intros [|j] Hj.
      * unfold polls, reviewsShown. simpl.
        destruct (querySelectorAll (document (surface s)) (dataHook "review"));
          [reflexivity|simpl in Hnone; lia].
      * rewrite <- Hshift. apply Hbefore. lia.
    + destruct Hlast as [Hlast|Hlast]; [now left|right; lia].
Qed.

Lemma waitForPageLoad_spec s :
  exists attempts s',
    waitForPageLoad s = Some (attempts, s')
    /\ 1 <= attempts <= maxAttempts
    /\ s' = log (LogLoaded (currentPage s)
                   (length (reviewsShown (polls attempts (surface s)))))
                (setSurface (polls attempts (surface s)) s)
    /\ (forall j, 1 <= j < attempts -> reviewsShown (polls j (surface s)) = [])
    /\ (reviewsShown (polls attempts (surface s)) <> []
        \/ attempts = maxAttempts).
Proof.
  destruct (checkLoaded_spec maxAttempts 0 (sleep POLL_INTERVAL s)) as
    (k & s' & Hrun & Hbound & Hs' & Hbefore & Hlast);
    [unfold maxAttempts; lia|lia|].
  assert (Hshift : forall j,
             polls j (surface (sleep POLL_INTERVAL s)) = polls (S j) (surface s)).
  { intros j. unfold polls. simpl surface. now rewrite Nat.iter_succ_r. }
  exists (S k), s'. rewrite Hshift in Hs', Hlast.
  split; [exact Hrun|]. split; [simpl in Hbound; lia|].
  split; [exact Hs'|]. split.
  - intros [|j] Hj; [lia|]. rewrite <- Hshift. apply Hbefore. lia.
  - destruct Hlast as [Hlast|Hlast]; [now left|now right].
Qed.

(** *** Navigation *)

Lemma goToNextPage_yes s :
  hasNextPage (document (surface s)) = true ->
  goToNextPage s
  = (true, setSurface (click (surface s))
             (log (LogNavigating (currentPage s + 1)) s)).
Proof.
  unfold hasNextPage, goToNextPage.
  destruct (firstInDocument (document (surface s)) nextButtonSelectors);
    [|discriminate].
  intros ->. reflexivity.
Qed.

Lemma goToNextPage_no s :
  hasNextPage (document (surface s)) = false -> goToNextPage s = (false, s).
Proof.
  unfold hasNextPage, goToNextPage.
  destruct (firstInDocument (document (surface s)) nextButtonSelectors);
    [|reflexivity].
  intros ->. reflexivity.
Qed.

Lemma morePages_true s :
  morePages s = true <->
  hasNextPage (document (surface s)) = true /\ currentPage s < MAX_PAGES.
Proof.
  unfold morePages. rewrite andb_true_iff, Nat.ltb_lt. reflexivity.
Qed.

(** *** One turn of the loop *)

Lemma extractAndPause_shape s :
  let s' := extractAndPause s in
  allReviews s'
  = allReviews s ++ forEachReview (length (allReviews s)) (currentPage s) 0
      (findReviewElements (document (surface s)) reviewSelectors)
  /\ currentPage s' = currentPage s
  /\ totalPages s' = totalPages s
  /\ isProcessing s' = isProcessing s
  /\ (surface s' = surface s
      \/ surface s' = elapse DELAY_BETWEEN_PAGES (surface s))
  /\ exists entries,
       console s' = console s ++ entries
       /\ detectedPages entries = [currentPage s]
       /\ quiet entries = true.
Proof.
  unfold extractAndPause, extractReviewsFromCurrentPage. cbv zeta.
  match goal with |- context [if ?c then _ else _] => destruct c end; cbn;
    (repeat split; [auto|]); eexists; rewrite <- !app_assoc;
    (split; [reflexivity|split; reflexivity]).
Qed.

Lemma loopBody_shape s :
  morePages s = true ->
  exists attempts s3 s',
    waitForPageLoad
      (setSurface (click (surface s))
         (log (LogNavigating (currentPage s + 1 + 1))
            (setCurrentPage (currentPage s + 1) s)))
    = Some (attempts, s3)
    /\ loopBody s = Some (true, s')
    /\ s' = extractAndPause s3
    /\ surface s3 = polls attempts (click (surface s))
    /\ (surface s' = surface s3
        \/ surface s' = elapse DELAY_BETWEEN_PAGES (surface s3))
    /\ allReviews s'
       = allReviews s ++ forEachReview (length (allReviews s))
           (currentPage s + 1) 0
           (findReviewElements (document (surface s3)) reviewSelectors)
    /\ currentPage s' = currentPage s + 1
    /\ totalPages s' = totalPages s
    /\ isProcessing s' = isProcessing s
    /\ exists entries,
         console s' = console s ++ entries
         /\ detectedPages entries = [currentPage s + 1]
         /\ quiet entries = true.
Proof.
  intros Hmore. apply morePages_true in Hmore as [Hnext _].
  unfold loopBody. cbv zeta.
  rewrite goToNextPage_yes by exact Hnext. cbn [negb].
  match goal with |- context [waitForPageLoad ?x] =>
    destruct (waitForPageLoad_spec x) as
      (attempts & s3 & Hwait & _ & Hs3 & _) end.
  cbn [surface setCurrentPage currentPage log setSurface] in *.
  exists attempts, s3, (extractAndPause s3). rewrite Hwait.
  split; [reflexivity|]. split; [reflexivity|]. split; [reflexivity|].
  destruct (extractAndPause_shape s3) as
    (Hall & Hpage & Htotal & Hflag & Hsurf & entries & Hcons & Hdet & Hquiet).
  cbv zeta in *. rewrite Hall, Hpage, Htotal, Hflag, Hcons.
  split; [now rewrite Hs3|]. split; [exact Hsurf|].
  rewrite Hs3. cbn.
  repeat split.
  eexists. rewrite <- !app_assoc. split; [reflexivity|].
  cbn. rewrite Hs3 in Hdet. cbn in Hdet. rewrite Hdet.
  split; [reflexivity|exact Hquiet].
Qed.

Lemma reachable_polls (w0 w : W) (k : nat) :
  reachable w0 w -> reachable w0 (polls k w).
Proof.
  intros H. unfold polls. induction k as [|k IH]; simpl;
    [exact H|now constructor].
Qed.

Lemma loopBody_reachable (w0 : W) s s' :
  morePages s = true ->
  loopBody s = Some (true, s') ->
  reachable w0 (surface s) ->
  reachable w0 (surface s')
  /\ exists w,
       reachable w0 w
       /\ allReviews s'
          = allReviews s ++ forEachReview (length (allReviews s))
              (currentPage s + 1) 0
              (findReviewElements (document w) reviewSelectors).
Proof.
  intros Hmore Hbody Hreach.
  destruct (loopBody_shape s Hmore) as
    (attempts & s3 & s1 & _ & Hbody' & _ & Hs3 & Hs1 & Hall & _).
  rewrite Hbody in Hbody'. injection Hbody' as <-.
  assert (H3 : reachable w0 (surface s3)).
  { rewrite Hs3. apply reachable_polls. now constructor. }
  split.
  - destruct Hs1 as [->| ->]; [exact H3|now constructor].
  - exists (surface s3). split; [exact H3|exact Hall].
Qed.

(** *** The loop *)

Lemma pageLoop_unfold (fuel : nat) s :
  pageLoop (S fuel) s
  = if morePages s then
      match loopBody s with
      | Some (true, s1) => pageLoop fuel s1
      | Some (false, s1) => Some s1
      | None => None
      end
    else Some s.
Proof. reflexivity. Qed.

Lemma pageLoop_stop (fuel : nat) s :
  morePages s = false -> pageLoop fuel s = Some s.
Proof. intros H. destruct fuel; cbn [pageLoop]; now rewrite H. Qed.

(** The loop ends within [MAX_PAGES - currentPage] turns. *)
Lemma pageLoop_total (fuel : nat) :
  forall s, MAX_PAGES - currentPage s <= fuel ->
            exists s', pageLoop fuel s = Some s'.
Proof.
  induction fuel as [|fuel IH]; intros s Hfuel.
  - exists s. apply pageLoop_stop. unfold morePages.
    apply andb_false_iff. right. apply Nat.ltb_ge. lia.
  - destruct (morePages s) eqn:Hmore; [|exists s; now apply pageLoop_stop].
    destruct (loopBody_shape s Hmore) as
      (attempts & s3 & s' & _ & Hbody & _ & _ & _ & _ & Hpage & _).
    rewrite pageLoop_unfold, Hmore, Hbody. apply IH. lia.
Qed.

(** A property kept by every turn is kept by the loop. *)
Lemma pageLoop_preserves (P : State W -> Prop) :
  (forall s s', morePages s = true -> loopBody s = Some (true, s') ->
                P s -> P s') ->
  forall fuel s s', P s -> pageLoop fuel s = Some s' -> P s'.
Proof.
  intros Hstep. induction fuel as [|fuel IH]; intros s s' HP Hrun.
  - cbn [pageLoop] in Hrun. destruct (morePages s); [discriminate|].
    now injection Hrun as <-.
  - rewrite pageLoop_unfold in Hrun.
    destruct (morePages s) eqn:Hmore; [|now injection Hrun as <-].
    destruct (loopBody_shape s Hmore) as
      (attempts & s3 & s1 & _ & Hbody & _).
    rewrite Hbody in Hrun. apply (IH s1 s'); [|exact Hrun].
    now apply (Hstep s s1).
Qed.

Lemma pageLoop_isProcessing (fuel : nat) s s' :
  pageLoop fuel s = Some s' -> isProcessing s' = isProcessing s.
Proof.
  apply (pageLoop_preserves (fun x => isProcessing x = isProcessing s));
    [|reflexivity].
  intros a b Hmore Hbody Ha.
  destruct (loopBody_shape a Hmore) as
    (attempts & s3 & b' & _ & Hbody' & _ & _ & _ & _ & _ & _ & Hflag & _).
  rewrite Hbody in Hbody'. injection Hbody' as <-. congruence.
Qed.

Lemma pageLoop_extends (fuel : nat) s s' :
  pageLoop fuel s = Some s' ->
  (exists added, allReviews s' = allReviews s ++ added)
  /\ currentPage s <= currentPage s'
  /\ exists entries, console s' = console s ++ entries.
Proof.
  apply (pageLoop_preserves
           (fun x => (exists added, allReviews x = allReviews s ++ added)
                     /\ currentPage s <= currentPage x
                     /\ exists entries, console x = console s ++ entries)).
  - intros a b Hmore Hbody ((added & Ha) & Hpage & entries & Hcons).
    destruct (loopBody_shape a Hmore) as
      (attempts & s3 & b' & _ & Hbody' & _ & _ & _ & Hall & Hp & _ & _
       & more & Hmorecons & _).
    rewrite Hbody in Hbody'. injection Hbody' as <-.
    rewrite Hall, Ha, Hp, Hmorecons, Hcons. rewrite <- !app_assoc.
    split; [eexists; reflexivity|]. split; [lia|eexists; reflexivity].
  - split; [exists []; now rewrite app_nil_r|].
    split; [lia|exists []; now rewrite app_nil_r].
Qed.

Lemma pageLoop_hasContent (fuel : nat) s s' :
  Forall hasContent (allReviews s) ->
  pageLoop fuel s = Some s' -> Forall hasContent (allReviews s').
Proof.
  apply (pageLoop_preserves (fun x => Forall hasContent (allReviews x))).
  intros a b Hmore Hbody Ha.
  destruct (loopBody_shape a Hmore) as
    (attempts & s3 & b' & _ & Hbody' & _ & _ & _ & Hall & _).
  rewrite Hbody in Hbody'. injection Hbody' as <-.
  rewrite Hall. apply Forall_app. split; [exact Ha|].
  apply forEachReview_nonempty.
Qed.

Lemma numbered_app (reviews : list Review) (pageNo : nat)
  (rs : list Container) :
  Forall (fun r => keeps r = true) rs ->
  numbered reviews ->
  numbered (reviews ++ forEachReview (length reviews) pageNo 0 rs).
Proof.
  unfold numbered. intros Hkept Hnum.
  rewrite map_app, length_app, seq_app, Hnum. f_equal.
  rewrite forEachReview_all_kept by exact Hkept.
  rewrite forEachReview_length.
  replace (filter keeps rs) with rs.
  - f_equal. lia.
  - clear Hnum. induction Hkept as [|r rs Hr _ IH]; simpl; [reflexivity|].
    rewrite Hr. now f_equal.
Qed.

Lemma pageLoop_numbered (w0 : W) (fuel : nat) s s' :
  (forall w, reachable w0 w ->
             Forall (fun r => keeps r = true)
               (findReviewElements (document w) reviewSelectors)) ->
  reachable w0 (surface s) ->
  numbered (allReviews s) ->
  pageLoop fuel s = Some s' -> numbered (allReviews s').
Proof.
  intros Hkept Hreach Hnum Hloop.
  apply (pageLoop_preserves
           (fun x => numbered (allReviews x) /\ reachable w0 (surface x)))
    with (s' := s') in Hloop; [apply Hloop| |now split].
  intros a b Hmore Hbody [Ha Hra].
  destruct (loopBody_reachable w0 a b Hmore Hbody Hra)
    as (Hrb & w & Hw & Hall).
  split; [|exact Hrb]. rewrite Hall. apply numbered_app; [|exact Ha].
  now apply Hkept.
Qed.

(** *** A whole run *)

Lemma firstPage_shape s :
  allReviews (firstPage s)
  = allReviews s ++ forEachReview (length (allReviews s)) (currentPage s) 0
      (findReviewElements (document (surface s)) reviewSelectors)
  /\ currentPage (firstPage s) = currentPage s
  /\ isProcessing (firstPage s) = isProcessing s
  /\ surface (firstPage s) = surface s
  /\ console (firstPage s)
     = console s
       ++ [LogDetected (currentPage s)
             (length (findReviewElements (document (surface s))
                        reviewSelectors))].
Proof. repeat split. Qed.

Lemma report_shape s :
  allReviews (report s) = allReviews s
  /\ currentPage (report s) = currentPage s
  /\ isProcessing (report s) = isProcessing s
  /\ surface (report s) = surface s
  /\ console (report s)
     = console s
       ++ [LogFinished (length (allReviews s)) (currentPage s);
           LogJson (allReviews s);
           LogStatsTotal (length (allReviews s));
           LogStatsNotes (noteStatsOf (allReviews s));
           LogStatsVerified (verifiedCount (allReviews s))
                            (length (allReviews s))].
Proof.
  repeat split. unfold report. cbn. now rewrite <- !app_assoc.
Qed.

Lemma tryBlock_firstPage s :
  tryBlock s
  = match pageLoop MAX_PAGES (firstPage s) with
    | Some s3 => Some (report s3)
    | None => None
    end.
Proof. reflexivity. Qed.

Lemma processAllPages_rejected s :
  isProcessing s = true -> processAllPages s = Some (log LogAlreadyRunning s).
Proof. intros H. unfold processAllPages, guarded. now rewrite H. Qed.

Lemma processAllPages_started s :
  isProcessing s = false ->
  processAllPages s
  = match pageLoop MAX_PAGES
            (firstPage (log LogStart (setIsProcessing true s))) with
    | Some s3 => Some (setIsProcessing false (report s3))
    | None => None
    end.
Proof.
  intros H. unfold processAllPages, guarded. rewrite H, tryBlock_firstPage.
  now destruct (pageLoop MAX_PAGES _).
Qed.

Lemma processAllPages_run s s' :
  isProcessing s = false ->
  processAllPages s = Some s' ->
  exists s3,
    pageLoop MAX_PAGES (firstPage (log LogStart (setIsProcessing true s)))
    = Some s3
    /\ s' = setIsProcessing false (report s3).
Proof.
  intros H Hrun. rewrite processAllPages_started in Hrun by exact H.
  destruct (pageLoop MAX_PAGES _) as [s3|]; [|discriminate].
  exists s3. split; [reflexivity|]. now injection Hrun as <-.
Qed.

(** The run always comes to an end. *)
Lemma processAllPages_total s : exists s', processAllPages s = Some s'.
Proof.
  destruct (isProcessing s) eqn:H.
  - eexists. now apply processAllPages_rejected.
  - rewrite processAllPages_started by exact H.
    destruct (pageLoop_total MAX_PAGES
                (firstPage (log LogStart (setIsProcessing true s))))
      as [s3 Hs3]; [lia|].
    rewrite Hs3. eexists. reflexivity.
Qed.

Lemma detectedPages_app (a b : list LogEntry) :
  detectedPages (a ++ b) = detectedPages a ++ detectedPages b.
Proof.
  induction a as [|entry a IH]; simpl; [reflexivity|].
  destruct entry; simpl; now rewrite ?IH.
Qed.

Lemma quiet_app (a b : list LogEntry) :
  quiet (a ++ b) = quiet a && quiet b.
Proof. apply forallb_app. Qed.

(** ** C2: what a run starts from *)

(** C2, as the code has it.  The run state is set once, when the script is
    loaded: no record, page 1, not running.  The entry point resets
    nothing: a run that is not rejected extracts its first page with the
    page counter and the record count it finds, keeps every record it
    finds as a prefix of its result, and never lowers the page counter. *)
Theorem run_starts_from_given_state :
  (forall w : W,
      allReviews (loaded w) = [] /\ currentPage (loaded w) = 1
      /\ isProcessing (loaded w) = false)
  /\ (forall s s',
        isProcessing s = false ->
        processAllPages s = Some s' ->
        currentPage s <= currentPage s'
        /\ exists rest,
             allReviews s'
             = allReviews s
               ++ forEachReview (length (allReviews s)) (currentPage s) 0
                    (findReviewElements (document (surface s)) reviewSelectors)
               ++ rest).
Proof.
  split; [intros w; repeat split|].
  intros s s' Hidle Hrun.
  destruct (processAllPages_run s s' Hidle Hrun) as (s3 & Hloop & ->).
  apply pageLoop_extends in Hloop as ((rest & Hall) & Hpage & _).
  cbn in Hpage, Hall |- *. split; [exact Hpage|].
  exists rest. rewrite Hall. now rewrite <- app_assoc.
Qed.

(** ** A "next" control that never goes away *)

Lemma pageLoop_always_next (w0 : W) :
  (forall w, reachable w0 w -> hasNextPage (document w) = true) ->
  forall fuel s,
    reachable w0 (surface s) ->
    currentPage s <= MAX_PAGES ->
    MAX_PAGES - currentPage s <= fuel ->
    exists s',
      pageLoop fuel s = Some s'
      /\ currentPage s' = MAX_PAGES
      /\ exists entries,
           console s' = console s ++ entries
           /\ detectedPages entries
              = seq (currentPage s + 1) (MAX_PAGES - currentPage s)
           /\ quiet entries = true.
Proof.
  intros Hnext.
  assert (Hend : forall fuel s,
             currentPage s = MAX_PAGES ->
             exists s',
               pageLoop fuel s = Some s'
               /\ currentPage s' = MAX_PAGES
               /\ exists entries,
                    console s' = console s ++ entries
                    /\ detectedPages entries
                       = seq (currentPage s + 1) (MAX_PAGES - currentPage s)
                    /\ quiet entries = true).
  { intros fuel s Hcp. exists s. split.
    - apply pageLoop_stop. unfold morePages. rewrite Hcp, Nat.ltb_irrefl.
      apply andb_false_r.
    - split; [exact Hcp|]. exists []. rewrite app_nil_r, Hcp, Nat.sub_diag.
      repeat split. }
  induction fuel as [|fuel IH]; intros s Hreach Hle Hfuel; [apply Hend; lia|].
  destruct (Nat.eq_dec (currentPage s) MAX_PAGES) as [Hcp|Hcp];
    [now apply Hend|].
  assert (Hmore : morePages s = true).
  { apply morePages_true. split; [now apply Hnext|lia]. }
  destruct (loopBody_shape s Hmore) as
    (attempts & s3 & s1 & _ & Hbody & _ & _ & _ & _ & Hpage & _ & _
     & e1 & Hcons1 & Hdet1 & Hquiet1).
  destruct (loopBody_reachable w0 s s1 Hmore Hbody Hreach) as [Hreach1 _].
  destruct (IH s1) as (s' & Hloop & Hlast & e2 & Hcons2 & Hdet2 & Hquiet2);
    [exact Hreach1|lia|lia|].
  exists s'. rewrite pageLoop_unfold, Hmore, Hbody.
  split; [exact Hloop|]. split; [exact Hlast|].
  exists (e1 ++ e2). rewrite Hcons2, Hcons1, <- app_assoc.
  split; [reflexivity|].
  rewrite detectedPages_app, quiet_app, Hdet1, Hdet2, Hquiet1, Hquiet2, Hpage.
  split; [|reflexivity].
  replace (MAX_PAGES - currentPage s)
    with (S (MAX_PAGES - (currentPage s + 1))) by lia.
  cbn [seq app]. now rewrite (Nat.add_1_r (currentPage s + 1)).
Qed.

(** ** C6: a call during a run *)

(** From the flag being set at line 159 to the [finally] of line 216,
    nothing clears it. *)
Lemma flag_set_until_finally (fuel : nat) s s3 :
  pageLoop fuel (firstPage (log LogStart (setIsProcessing true s))) = Some s3 ->
  isProcessing s3 = true /\ isProcessing (report s3) = true.
Proof.
  intros Hloop. apply pageLoop_isProcessing in Hloop. cbn in Hloop.
  split; [exact Hloop|]. destruct (report_shape s3) as (_ & _ & -> & _).
  exact Hloop.
Qed.

(** C6.  Called while the running flag is set, the entry point returns at
    once: it prints the rejection and leaves the records, the page
    counter, the flag and the surface as they are. *)
Theorem call_during_run_is_rejected s :
  isProcessing s = true ->
  exists s',
    processAllPages s = Some s'
    /\ allReviews s' = allReviews s
    /\ currentPage s' = currentPage s
    /\ totalPages s' = totalPages s
    /\ isProcessing s' = true
    /\ surface s' = surface s
    /\ console s' = console s ++ [LogAlreadyRunning].
Proof.
  intros Hbusy. exists (log LogAlreadyRunning s).
  split; [now apply processAllPages_rejected|].
  cbn. repeat split. exact Hbusy.
Qed.

Lemma run_console s s' :
  isProcessing s = false ->
  processAllPages s = Some s' ->
  (exists more, console s' = console s ++ LogStart :: more)
  /\ exists before,
       console s'
       = before ++ [LogStatsVerified (verifiedCount (allReviews s'))
                                     (length (allReviews s'))].
Proof.
  intros Hidle Hrun.
  destruct (processAllPages_run s s' Hidle Hrun) as (s3 & Hloop & ->).
  apply pageLoop_extends in Hloop as (_ & _ & entries & Hcons).
  destruct (report_shape s3) as (Hall & _ & _ & _ & Hrep).
  cbn [console allReviews setIsProcessing]. rewrite Hall, Hrep, Hcons.
  cbn [console firstPage extractReviewsFromCurrentPage log setAllReviews
       setIsProcessing]. split.
  - eexists. rewrite <- !app_assoc. cbn [app]. reflexivity.
  - match goal with
    | |- exists _, ?l ++ [?a; ?b; ?c; ?d; ?e] = _ =>
        exists (l ++ [a; b; c; d]); exact (app_assoc l [a; b; c; d] [e])
    end.
Qed.

(** ** C7: the statistic on verified purchases *)

(** C7, as the code has it.  The last line a run prints reports the number
    of records whose verified-purchase flag is set and the total number of
    records, as the text "v/t" after a fixed prefix.  No quotient is
    computed, so nothing can fail when there is no record: the line then
    ends with "0/0". *)
Theorem verified_statistic s s' :
  isProcessing s = false ->
  processAllPages s = Some s' ->
  let verified := verifiedCount (allReviews s') in
  let total := length (allReviews s') in
  (exists before, console s' = before ++ [LogStatsVerified verified total])
  /\ verified = length (filter achat_verifie (allReviews s'))
  /\ verified <= total
  /\ verifiedLine verified total
     = js "Avis v" ++ [233%N] ++ js "rifi" ++ [233%N] ++ js "s: "
          ++ decimal verified ++ js "/" ++ decimal total
  /\ (total = 0 ->
      verifiedLine verified total
      = js "Avis v" ++ [233%N] ++ js "rifi" ++ [233%N] ++ js "s: 0/0").
Proof.
  intros Hidle Hrun verified total.
  assert (Hle : verified <= total) by apply filter_length_le.
  split; [exact (proj2 (run_console s s' Hidle Hrun))|].
  split; [reflexivity|]. split; [exact Hle|]. split; [reflexivity|].
  intros Hzero. rewrite Hzero in *.
  replace verified with 0 by lia. reflexivity.
Qed.

(** ** C8: records without title and body *)

Lemma processAllPages_hasContent s s' :
  Forall hasContent (allReviews s) ->
  processAllPages s = Some s' -> Forall hasContent (allReviews s').
Proof.
  intros Hinit Hrun. destruct (isProcessing s) eqn:Hflag.
  - rewrite processAllPages_rejected in Hrun by exact Hflag.
    now injection Hrun as <-.
  - destruct (processAllPages_run s s' Hflag Hrun) as (s3 & Hloop & ->).
    apply pageLoop_hasContent in Hloop; [exact Hloop|].
    cbn. apply Forall_app. split; [exact Hinit|].
    apply forEachReview_nonempty.
Qed.

(** C8.  A container whose normalised title and body are both empty gives
    no record; every record that an extraction returns has a non-empty
    normalised title or body; and so has every record of the collection
    after a run, when the records the run started from had. *)
Theorem no_record_without_content :
  (forall count pageNo index r,
      textOf (firstMatch r titleSelectors) = [] ->
      textOf (firstMatch r textSelectors) = [] ->
      extractReview count pageNo index r = None)
  /\ (forall count pageNo index r review,
        extractReview count pageNo index r = Some review ->
        titre review = textOf (firstMatch r titleSelectors)
        /\ texte review = textOf (firstMatch r textSelectors)
        /\ hasContent review)
  /\ (forall s review,
        In review (fst (extractReviewsFromCurrentPage s)) ->
        hasContent review)
  /\ (forall s s',
        Forall hasContent (allReviews s) ->
        processAllPages s = Some s' ->
        Forall hasContent (allReviews s'))
  /\ (forall (w : W) s',
        processAllPages (loaded w) = Some s' ->
        Forall hasContent (allReviews s')).
Proof.
  split; [|split; [|split; [|split]]].
  - intros count pageNo index r Ht Hb. now apply extractReview_None.
  - intros count pageNo index r review Hx.
    apply extractReview_Some in Hx as [-> Hc]. repeat split; exact Hc.
  - intros s review Hin. rewrite extract_fst in Hin.
    pose proof (forEachReview_nonempty (length (allReviews s)) (currentPage s)
                  (findReviewElements (document (surface s)) reviewSelectors) 0)
      as Hall.
    rewrite Forall_forall in Hall. now apply Hall.
  - exact processAllPages_hasContent.
  - intros w s'. apply processAllPages_hasContent. constructor.
Qed.

(** ** C10: the running flag after a call *)

(** C10, as the code has it.  After a call that passed the entry guard has
    returned, the running flag is cleared, whether the [try] block ended
    normally or threw, and the next call is not rejected: it starts a
    run. *)
Theorem flag_cleared_after_run s :
  isProcessing s = false ->
  (exists s',
      processAllPages s = Some s'
      /\ isProcessing s' = false
      /\ exists s'' more,
           processAllPages s' = Some s''
           /\ console s'' = console s' ++ LogStart :: more)
  /\ (forall block s',
        guarded block s = Some s' -> isProcessing s' = false)
  /\ (forall error s1,
        guarded (fun _ => Some (Thrown error s1)) s
        = Some (setIsProcessing false (log (LogError error) s1))).
Proof.
  intros Hidle.
  assert (Hframe : forall block s',
             guarded block s = Some s' -> isProcessing s' = false).
  { intros block s'. unfold guarded. rewrite Hidle.
    destruct (block _) as [[s2|error s2]|]; intros E;
      [injection E as <-; reflexivity
      |injection E as <-; reflexivity
      |discriminate]. }
  split; [|split; [exact Hframe|]].
  - destruct (processAllPages_total s) as [s' Hrun].
    assert (Hflag : isProcessing s' = false)
      by exact (Hframe _ _ Hrun).
    exists s'. split; [exact Hrun|]. split; [exact Hflag|].
    destruct (processAllPages_total s') as [s'' Hnext].
    destruct (run_console s' s'' Hflag Hnext) as ((more & Hcons) & _).
    exists s'', more. split; [exact Hnext|exact Hcons].
  - intros error s1. unfold guarded. now rewrite Hidle.
Qed.

End DriverFacts.

(** ** Static sites *)

Lemma static_polls (k : nat) (w : Site) : polls k w = w.
Proof. unfold polls. induction k as [|k IH]; simpl; [reflexivity|exact IH]. Qed.

Lemma static_pageLoop (rest : list Document) :
  forall (ds : list Document) (d : Document) (fuel : nat) (s : State Site),
    surface s = {| shown := d; later := ds ++ rest |} ->
    chain d ds ->
    currentPage s + length ds <= MAX_PAGES ->
    length ds <= fuel ->
    exists s',
      pageLoop fuel s = Some s'
      /\ currentPage s' = currentPage s + length ds
      /\ map page (allReviews s')
         = map page (allReviews s) ++ pageMarks (currentPage s + 1) ds
      /\ exists entries,
           console s' = console s ++ entries
           /\ detectedPages entries = seq (currentPage s + 1) (length ds)
           /\ quiet entries = true.
Proof.
  induction ds as [|d' ds IH]; intros d fuel s Hsurf Hchain Hmax Hfuel.
  - exists s. split.
    + apply pageLoop_stop. unfold morePages. rewrite Hsurf. simpl in *.
      now rewrite Hchain.
    + simpl. rewrite Nat.add_0_r, !app_nil_r. repeat split.
      exists []. now rewrite app_nil_r.
  - destruct Hchain as [Hnext Hchain]. simpl in Hmax, Hfuel.
    destruct fuel as [|fuel]; [lia|].
    assert (Hmore : morePages s = true).
    { apply morePages_true. rewrite Hsurf. split; [exact Hnext|lia]. }
    destruct (loopBody_shape s Hmore) as
      (attempts & s3 & s1 & _ & Hbody & _ & Hs3 & Hs1 & Hall & Hpage & _ & _
       & e1 & Hcons1 & Hdet1 & Hquiet1).
    rewrite static_polls, Hsurf in Hs3. cbn in Hs3.
    assert (Hsurf1 : surface s1 = {| shown := d'; later := ds ++ rest |}).
    { destruct Hs1 as [->| ->]; exact Hs3. }
    destruct (IH d' fuel s1 Hsurf1 Hchain) as
      (s' & Hloop & Hlast & Hpages & e2 & Hcons2 & Hdet2 & Hquiet2);
      [lia|lia|].
    exists s'. rewrite pageLoop_unfold, Hmore, Hbody.
    split; [exact Hloop|]. split; [cbn [length]; lia|]. split.
    + rewrite Hpages, Hall, map_app, forEachReview_page, Hs3, Hpage.
      cbn [document StaticSite shown pageMarks]. fold (yield d').
      rewrite <- app_assoc. now rewrite (Nat.add_1_r (currentPage s + 1)).
    + exists (e1 ++ e2). rewrite Hcons2, Hcons1, <- app_assoc.
      split; [reflexivity|].
      rewrite detectedPages_app, quiet_app, Hdet1, Hdet2, Hquiet1, Hquiet2,
        Hpage.
      cbn [length seq app]. now rewrite (Nat.add_1_r (currentPage s + 1)).
Qed.

(** ** The claims on sample sites *)

Example wait_three_polls :
  option_map fst (waitForPageLoad (loaded slowPage)) = Some 3.
Proof. reflexivity. Qed.

Example wait_times_out :
  option_map fst (waitForPageLoad (loaded emptySite)) = Some 30.
Proof. reflexivity. Qed.

Lemma reachable_endless (w : Site) : reachable endless w -> w = endless.
Proof. induction 1 as [|w _ ->|ms w _ ->]; reflexivity. Qed.

(** C2 as stated fails: after a first run on [twoPages] has returned, with
    three records and the page counter at 2, a second run starts from
    those: it keeps the three records and numbers the page it extracts 2,
    and its record 4. *)
Lemma second_run_inherits :
  exists s1 s2,
    processAllPages (loaded twoPages) = Some s1
    /\ isProcessing s1 = false
    /\ length (allReviews s1) = 3
    /\ currentPage s1 = 2
    /\ processAllPages s1 = Some s2
    /\ map id (allReviews s2) = [2; 3; 3; 4]
    /\ map page (allReviews s2) = [1; 1; 2; 2]
    /\ detectedPages (console s2) = [1; 2; 2].
Proof.
  eexists. eexists. split; [vm_compute; reflexivity|].
  split; [reflexivity|]. split; [reflexivity|]. split; [reflexivity|].
  split; [vm_compute; reflexivity|]. repeat split.
Qed.

Lemma run_starts_from_given_state_witness :
  exists s',
    processAllPages (loaded twoPages) = Some s'
    /\ 1 <= currentPage s'
    /\ exists rest,
         allReviews s' = [] ++ forEachReview 0 1 0 [blank; good; good] ++ rest.
Proof.
  destruct (processAllPages (loaded twoPages)) as [s'|] eqn:Hrun;
    [|vm_compute in Hrun; discriminate].
  exists s'. split; [reflexivity|].
  destruct (@run_starts_from_given_state Site StaticSite) as [_ H].
  exact (H (loaded twoPages) s' eq_refl Hrun).
Defined.

(** C3 as stated fails: on [twoPages] the first container of page 1 is
    discarded, so page 1 gives ids 2 and 3 and leaves two records, and the
    only record of page 2 gets id 2 + 0 + 1 = 3 again. *)
Lemma duplicate_ids_after_discard :
  exists s',
    processAllPages (loaded twoPages) = Some s'
    /\ map id (allReviews s') = [2; 3; 3]
    /\ map page (allReviews s') = [1; 1; 2]
    /\ ~ NoDup (map id (allReviews s')).
Proof.
  eexists. split; [vm_compute; reflexivity|].
  split; [reflexivity|]. split; [reflexivity|].
  cbn. intros H. inversion H as [|x l _ H1]; subst.
  inversion H1 as [|y l' Hnot _]; subst. apply Hnot. now left.
Qed.

Lemma call_during_run_is_rejected_witness :
  isProcessing awaitingSecondPage = true
  /\ exists s',
       processAllPages awaitingSecondPage = Some s'
       /\ allReviews s' = allReviews awaitingSecondPage
       /\ currentPage s' = 2
       /\ isProcessing s' = true.
Proof.
  split; [reflexivity|].
  destruct (call_during_run_is_rejected awaitingSecondPage eq_refl) as
    (s' & Hrun & Hall & Hpage & _ & Hflag & _).
  exists s'. repeat split; assumption.
Defined.

(** C7 as stated fails: a run over a page without reviews ends with a
    total of 0, and the statistic it prints is the text "0/0", not 0; the
    report holds no quotient at all. *)
Lemma no_ratio_for_no_review :
  exists s',
    processAllPages (loaded emptySite) = Some s'
    /\ console s'
       = [LogStart; LogDetected 1 0; LogFinished 0 1; LogJson [];
          LogStatsTotal 0; LogStatsNotes []; LogStatsVerified 0 0]
    /\ verifiedLine 0 0
       = js "Avis v" ++ [233%N] ++ js "rifi" ++ [233%N] ++ js "s: 0/0"
    /\ verifiedLine 0 0
       <> js "Avis v" ++ [233%N] ++ js "rifi" ++ [233%N] ++ js "s: 0".
Proof.
  eexists. split; [vm_compute; reflexivity|].
  split; [reflexivity|]. split; [reflexivity|].
  vm_compute. discriminate.
Qed.

Lemma verified_statistic_witness :
  exists s',
    processAllPages (loaded twoPages) = Some s'
    /\ (exists before, console s' = before ++ [LogStatsVerified 3 3])
    /\ verifiedLine 3 3
       = js "Avis v" ++ [233%N] ++ js "rifi" ++ [233%N] ++ js "s: 3/3".
Proof.
  destruct (processAllPages (loaded twoPages)) as [s'|] eqn:Hrun;
    [|vm_compute in Hrun; discriminate].
  exists s'. split; [reflexivity|].
  destruct (verified_statistic (loaded twoPages) s' eq_refl Hrun)
    as (Hlast & _).
  assert (Hv : verifiedCount (allReviews s') = 3
               /\ length (allReviews s') = 3).
  { vm_compute in Hrun. injection Hrun as <-. split; reflexivity. }
  destruct Hv as [Hv Ht]. rewrite Hv, Ht in Hlast.
  split; [exact Hlast|reflexivity].
Defined.

Lemma no_record_without_content_witness :
  extractReview 0 1 0 blank = None
  /\ exists s',
       processAllPages (loaded twoPages) = Some s'
       /\ Forall hasContent (allReviews s').
Proof.
  destruct (@no_record_without_content Site StaticSite)
    as (Hnone & _ & _ & _ & Hrun).
  split; [apply Hnone; reflexivity|].
  destruct (processAllPages (loaded twoPages)) as [s'|] eqn:Hend;
    [|vm_compute in Hend; discriminate].
  exists s'. split; [reflexivity|]. exact (Hrun twoPages s' Hend).
Defined.

(** C10 as stated fails: a call made while the run on [twoPages] awaits
    its second page returns with the running flag still set, and the call
    after it is rejected as well. *)
Lemma rejected_call_keeps_flag :
  exists s',
    processAllPages awaitingSecondPage = Some s'
    /\ isProcessing s' = true
    /\ processAllPages s' = Some (log LogAlreadyRunning s').
Proof.
  eexists. split; [vm_compute; reflexivity|].
  split; [reflexivity|]. vm_compute. reflexivity.
Qed.

Lemma flag_cleared_after_run_witness :
  exists s',
    processAllPages (loaded twoPages) = Some s'
    /\ isProcessing s' = false
    /\ exists s'' more,
         processAllPages s' = Some s''
         /\ console s'' = console s' ++ LogStart :: more.
Proof.
  destruct (flag_cleared_after_run (loaded twoPages) eq_refl) as [H _].
  exact H.
Defined.

(** * Further properties of the code *)

(** ** [cleanText] *)

Lemma cleanText_eq (text : jsstring) :
  cleanText text = replaceRuns false (trim text).
Proof. destruct text; reflexivity. Qed.

Lemma trimStart_head (s : jsstring) (c : N) (rest : jsstring) :
  trimStart s = c :: rest -> isWhiteSpace c = false.
Proof.
  induction s as [|a s IH]; simpl; [discriminate|].
  destruct (isWhiteSpace a) eqn:Ha; [exact IH|].
  intros E. injection E as <- _. exact Ha.
Qed.

Lemma trimStart_nil (s : jsstring) :
  trimStart s = [] <-> allWhite s = true.
Proof.
  unfold allWhite. induction s as [|a s IH]; simpl; [tauto|].
  destruct (isWhiteSpace a); simpl; [exact IH|].
  split; discriminate.
Qed.

Lemma trimStart_fixed (c : N) (rest : jsstring) :
  isWhiteSpace c = false -> trimStart (c :: rest) = c :: rest.
Proof. intros H. simpl. now rewrite H. Qed.

Lemma trimStart_snoc (l : jsstring) (c : N) :
  isWhiteSpace c = false -> trimStart (l ++ [c]) = trimStart l ++ [c].
Proof.
  intros Hc. induction l as [|a l IH]; simpl; [now rewrite Hc|].
  destruct (isWhiteSpace a); [exact IH|reflexivity].
Qed.

Lemma trimStart_inked (s : jsstring) : inked (trimStart s) = inked s.
Proof.
  unfold inked. induction s as [|a s IH]; simpl; [reflexivity|].
  destruct (isWhiteSpace a) eqn:Ha; simpl; [exact IH|].
  now rewrite Ha.
Qed.

Lemma trimStart_length (s : jsstring) : length (trimStart s) <= length s.
Proof.
  induction s as [|a s IH]; simpl; [lia|].
  destruct (isWhiteSpace a); simpl; lia.
Qed.

Lemma trimEnd_cons (c : N) (rest : jsstring) :
  isWhiteSpace c = false -> trimEnd (c :: rest) = c :: trimEnd rest.
Proof.
  intros Hc. unfold trimEnd. simpl rev.
  rewrite trimStart_snoc by exact Hc. now rewrite rev_app_distr.
Qed.

Lemma trimEnd_last (s front : jsstring) (c : N) :
  trimEnd s = front ++ [c] -> isWhiteSpace c = false.
Proof.
  unfold trimEnd. intros E.
  apply (f_equal (@rev N)) in E. rewrite rev_involutive, rev_app_distr in E.
  simpl in E. now apply trimStart_head in E.
Qed.

Lemma trimEnd_nil (s : jsstring) : trimEnd s = [] <-> allWhite s = true.
Proof.
  unfold trimEnd. split.
  - intros E. apply (f_equal (@rev N)) in E. rewrite rev_involutive in E.
    simpl in E. apply trimStart_nil in E. unfold allWhite in *.
    rewrite forallb_forall in *. intros x Hx. apply E. now apply in_rev in Hx.
  - intros H. assert (E : trimStart (rev s) = []).
    { apply trimStart_nil. unfold allWhite in *. rewrite forallb_forall in *.
      intros x Hx. apply H. now apply in_rev. }
    now rewrite E.
Qed.

Lemma trimEnd_fixed (s : jsstring) :
  (forall front c, s = front ++ [c] -> isWhiteSpace c = false) ->
  trimEnd s = s.
Proof.
  intros Hlast. unfold trimEnd.
  destruct (rev s) as [|c r] eqn:E.
  - apply (f_equal (@rev N)) in E. now rewrite rev_involutive in E.
  - assert (Hs : s = rev r ++ [c]).
    { apply (f_equal (@rev N)) in E. now rewrite rev_involutive in E. }
    rewrite trimStart_fixed by exact (Hlast _ _ Hs). now rewrite Hs.
Qed.

Lemma inked_rev (s : jsstring) : inked (rev s) = rev (inked s).
Proof.
  unfold inked. induction s as [|a s IH]; simpl; [reflexivity|].
  rewrite filter_app, IH. simpl.
  destruct (isWhiteSpace a); simpl; [now rewrite app_nil_r|reflexivity].
Qed.

Lemma trimEnd_inked (s : jsstring) : inked (trimEnd s) = inked s.
Proof.
  unfold trimEnd. now rewrite inked_rev, trimStart_inked, inked_rev,
    rev_involutive.
Qed.

Lemma trimEnd_length (s : jsstring) : length (trimEnd s) <= length s.
Proof.
  unfold trimEnd. rewrite length_rev.
  etransitivity; [apply trimStart_length|]. now rewrite length_rev.
Qed.

Lemma trim_head (s : jsstring) (c : N) (rest : jsstring) :
  trim s = c :: rest -> isWhiteSpace c = false.
Proof.
  unfold trim. destruct (trimStart s) as [|a r] eqn:E; [discriminate|].
  pose proof (trimStart_head _ _ _ E) as Ha.
  rewrite trimEnd_cons by exact Ha. intros H. now injection H as <- _.
Qed.

Lemma trim_last (s front : jsstring) (c : N) :
  trim s = front ++ [c] -> isWhiteSpace c = false.
Proof. apply trimEnd_last. Qed.

Lemma trim_nil (s : jsstring) : trim s = [] <-> allWhite s = true.
Proof.
  unfold trim. rewrite trimEnd_nil. split.
  - intros H. apply trimStart_nil.
    destruct (trimStart s) as [|a r] eqn:E; [reflexivity|].
    apply trimStart_head in E. simpl in H. now rewrite E in H.
  - intros H. apply trimStart_nil in H. now rewrite H.
Qed.

Lemma trim_fixed (s : jsstring) :
  (forall c rest, s = c :: rest -> isWhiteSpace c = false) ->
  (forall front c, s = front ++ [c] -> isWhiteSpace c = false) ->
  trim s = s.
Proof.
  intros Hhead Hlast. unfold trim.
  destruct s as [|c rest]; [reflexivity|].
  rewrite trimStart_fixed by exact (Hhead _ _ eq_refl).
  now apply trimEnd_fixed.
Qed.

Lemma replaceRuns_singleSpaced (s : jsstring) :
  forall prev, singleSpaced prev (replaceRuns prev s) = true.
Proof.
  induction s as [|c s IH]; intros prev; simpl; [reflexivity|].
  destruct (isWhiteSpace c) eqn:Hc.
  - destruct prev; [apply IH|]. simpl.
    change (isWhiteSpace SPACE) with true. simpl. apply IH.
  - simpl. rewrite Hc. apply IH.
Qed.

Lemma replaceRuns_fixed (s : jsstring) :
  forall prev, singleSpaced prev s = true -> replaceRuns prev s = s.
Proof.
  induction s as [|c s IH]; intros prev; simpl; [reflexivity|].
  destruct (isWhiteSpace c) eqn:Hc.
  - intros H. apply andb_true_iff in H as [H Hrest].
    apply andb_true_iff in H as [Hprev Hspace].
    apply negb_true_iff in Hprev. apply N.eqb_eq in Hspace. subst prev c.
    now rewrite IH.
  - intros H. now rewrite IH.
Qed.

Lemma replaceRuns_nil (s : jsstring) :
  replaceRuns false s = [] -> s = [].
Proof.
  destruct s as [|c s]; [reflexivity|]. simpl.
  destruct (isWhiteSpace c); discriminate.
Qed.

Lemma replaceRuns_head (c : N) (s out : jsstring) (a : N) :
  isWhiteSpace c = false ->
  replaceRuns false (c :: s) = a :: out -> a = c.
Proof. intros Hc. simpl. rewrite Hc. intros E. now injection E. Qed.

Lemma replaceRuns_snoc (l : jsstring) (c : N) :
  isWhiteSpace c = false ->
  forall prev, replaceRuns prev (l ++ [c]) = replaceRuns prev l ++ [c].
Proof.
  intros Hc. induction l as [|a l IH]; intros prev; simpl.
  - now rewrite Hc.
  - destruct (isWhiteSpace a); [destruct prev|]; simpl; now rewrite IH.
Qed.

Lemma replaceRuns_inked (s : jsstring) :
  forall prev, inked (replaceRuns prev s) = inked s.
Proof.
  unfold inked. induction s as [|c s IH]; intros prev; simpl; [reflexivity|].
  destruct (isWhiteSpace c) eqn:Hc; simpl.
  - destruct prev; simpl; [apply IH|].
    change (isWhiteSpace SPACE) with true. simpl. apply IH.
  - rewrite Hc. simpl. now rewrite IH.
Qed.

Lemma replaceRuns_length (s : jsstring) :
  forall prev, length (replaceRuns prev s) <= length s.
Proof.
  induction s as [|c s IH]; intros prev; simpl; [lia|].
  destruct (isWhiteSpace c); [destruct prev|]; simpl;
    match goal with |- context [replaceRuns ?b s] => specialize (IH b) end;
    lia.
Qed.

Lemma singleSpaced_spaces (s : jsstring) :
  forall prev, singleSpaced prev s = true ->
               forall c, In c s -> isWhiteSpace c = true -> c = SPACE.
Proof.
  induction s as [|a s IH]; intros prev H c Hin Hc; [contradiction|].
  simpl in H. destruct Hin as [->|Hin].
  - rewrite Hc in H. apply andb_true_iff in H as [H _].
    apply andb_true_iff in H as [_ H]. now apply N.eqb_eq in H.
  - destruct (isWhiteSpace a).
    + apply andb_true_iff in H as [_ H]. exact (IH _ H c Hin Hc).
    + exact (IH _ H c Hin Hc).
Qed.

Lemma singleSpaced_apart (s : jsstring) :
  forall prev front a b back,
    singleSpaced prev s = true ->
    s = front ++ a :: b :: back ->
    isWhiteSpace a = true -> isWhiteSpace b = false.
Proof.
  induction s as [|x s IH]; intros prev front a b back H E Ha.
  - destruct front; discriminate.
  - simpl in H. destruct front as [|y front]; simpl in E.
    + injection E as -> ->. rewrite Ha in H.
      apply andb_true_iff in H as [_ H]. simpl in H.
      destruct (isWhiteSpace b); [|reflexivity]. discriminate.
    + injection E as -> E.
      destruct (isWhiteSpace y).
      * apply andb_true_iff in H as [_ H]. exact (IH _ _ _ _ _ H E Ha).
      * exact (IH _ _ _ _ _ H E Ha).
Qed.

Lemma cleanText_head (text : jsstring) (c : N) (rest : jsstring) :
  cleanText text = c :: rest -> isWhiteSpace c = false.
Proof.
  rewrite cleanText_eq. destruct (trim text) as [|a r] eqn:E; [discriminate|].
  pose proof (trim_head _ _ _ E) as Ha. intros H.
  apply replaceRuns_head in H; [|exact Ha]. now subst.
Qed.

Lemma cleanText_last (text front : jsstring) (c : N) :
  cleanText text = front ++ [c] -> isWhiteSpace c = false.
Proof.
  rewrite cleanText_eq.
  destruct (rev (trim text)) as [|a r] eqn:E.
  - apply (f_equal (@rev N)) in E. rewrite rev_involutive in E. simpl in E.
    rewrite E. destruct front; discriminate.
  - assert (Ht : trim text = rev r ++ [a]).
    { apply (f_equal (@rev N)) in E. now rewrite rev_involutive in E. }
    pose proof (trim_last _ _ _ Ht) as Ha.
    rewrite Ht, replaceRuns_snoc by exact Ha. intros H.
    apply app_inj_tail in H as [_ <-]. exact Ha.
Qed.

Lemma cleanText_singleSpaced (text : jsstring) :
  singleSpaced false (cleanText text) = true.
Proof. rewrite cleanText_eq. apply replaceRuns_singleSpaced. Qed.

Lemma cleanText_is_tidy (text : jsstring) : tidy (cleanText text).
Proof.
  split; [|split; [|split]].
  - apply cleanText_head.
  - apply cleanText_last.
  - apply (singleSpaced_spaces _ false), cleanText_singleSpaced.
  - intros front a b back. apply (singleSpaced_apart _ false),
      cleanText_singleSpaced.
Qed.

(** X1.  The text that [cleanText] returns is normalised: it has no white
    space at either end, its only white space is the space, and no two
    spaces are adjacent. *)
Theorem cleanText_tidy (text : jsstring) : tidy (cleanText text).
Proof. apply cleanText_is_tidy. Qed.

Lemma tidy_singleSpaced (s : jsstring) :
  tidy s -> forall prev, singleSpaced prev s = true.
Proof.
  intros (Hhead & _ & Hspace & Hapart).
  assert (Hgen : forall t front,
             s = front ++ t ->
             forall prev,
               (prev = true ->
                forall c rest, t = c :: rest -> isWhiteSpace c = false) ->
               singleSpaced prev t = true).
  { induction t as [|c t IH]; intros front E prev Hprev; [reflexivity|].
    simpl. destruct (isWhiteSpace c) eqn:Hc.
    - destruct prev; [now rewrite (Hprev eq_refl c t eq_refl) in Hc|].
      simpl. rewrite (Hspace c); [|rewrite E; apply in_elt|exact Hc].
      simpl. apply (IH (front ++ [c])); [now rewrite <- app_assoc|].
      intros _ b rest ->. now apply (Hapart front c b rest).
    - apply (IH (front ++ [c])); [now rewrite <- app_assoc|]. discriminate. }
  intros prev. destruct prev; [|now apply (Hgen s [])].
  apply (Hgen s []); [reflexivity|]. intros _. exact Hhead.
Qed.

(** X2.  [cleanText] leaves a normalised text as it is; so cleaning twice
    is cleaning once. *)
Theorem cleanText_idempotent :
  (forall s, tidy s -> cleanText s = s)
  /\ (forall text, cleanText (cleanText text) = cleanText text).
Proof.
  assert (Hfix : forall s, tidy s -> cleanText s = s).
  { intros s Ht. rewrite cleanText_eq.
    destruct Ht as (Hhead & Hlast & Hrest) eqn:E. clear E.
    rewrite trim_fixed by assumption.
    apply replaceRuns_fixed, tidy_singleSpaced.
    repeat split; try assumption; apply Hrest. }
  split; [exact Hfix|]. intros text. apply Hfix, cleanText_is_tidy.
Qed.

Lemma cleanText_idempotent_witness :
  cleanText (js "Tres bien") = js "Tres bien".
Proof.
  apply (proj1 cleanText_idempotent).
  split; [|split; [|split]].
  - intros c rest E. injection E as <- _. reflexivity.
  - intros front c E.
    change (js "Tres bien") with (js "Tres bie" ++ [110%N]) in E.
    apply app_inj_tail in E as [_ <-]. reflexivity.
  - intros c Hin Hc. vm_compute in Hin.
    repeat (destruct Hin as [<-|Hin]; [first [reflexivity|discriminate]|]).
    contradiction.
  - intros front a b back E Ha.
    apply (singleSpaced_apart (js "Tres bien") false front a b back);
      [reflexivity|exact E|exact Ha].
Defined.

Lemma cleanText_nil (text : jsstring) :
  cleanText text = [] <-> allWhite text = true.
Proof.
  rewrite cleanText_eq. split.
  - intros H. apply trim_nil. now apply replaceRuns_nil.
  - intros H. apply trim_nil in H. now rewrite H.
Qed.

(** X3.  [cleanText] returns the empty string exactly for the texts made
    of white space only (the empty text among them). *)
Theorem cleanText_empty_iff (text : jsstring) :
  cleanText text = [] <-> allWhite text = true.
Proof. apply cleanText_nil. Qed.

(** X4.  [cleanText] neither adds, drops nor reorders a code unit that is
    not white space, and never makes the text longer. *)
Theorem cleanText_keeps_ink (text : jsstring) :
  inked (cleanText text) = inked text
  /\ length (cleanText text) <= length text.
Proof.
  rewrite cleanText_eq. split.
  - unfold trim. now rewrite replaceRuns_inked, trimEnd_inked, trimStart_inked.
  - etransitivity; [apply replaceRuns_length|]. unfold trim.
    etransitivity; [apply trimEnd_length|apply trimStart_length].
Qed.

(** ** The rating pattern *)

Lemma isDigit_bounds (c : N) : isDigit c = true <-> (48 <= c <= 57)%N.
Proof.
  unfold isDigit. rewrite andb_true_iff, !N.leb_le. reflexivity.
Qed.

Lemma digit_not_comma (c : N) : isDigit c = true -> (c =? COMMA)%N = false.
Proof.
  intros H. apply isDigit_bounds in H. apply N.eqb_neq. unfold COMMA. lia.
Qed.

Lemma parseFloat_digit (d : N) :
  isDigit d = true -> parseFloat (replaceComma [d]) = Num (digitValue d # 1).
Proof.
  intros Hd. simpl. rewrite (digit_not_comma d Hd). simpl. now rewrite Hd.
Qed.

Lemma parseFloat_tenths (d e : N) :
  isDigit d = true -> isDigit e = true ->
  parseFloat (replaceComma [d; COMMA; e])
  = Num ((10 * digitValue d + digitValue e) # 10).
Proof.
  intros Hd He. cbn -[N.mul N.add N.sub Z.of_N Z.mul Z.add].
  rewrite (digit_not_comma d Hd). cbn -[N.mul N.add N.sub Z.of_N Z.mul Z.add].
  rewrite Hd. cbn -[N.mul N.add N.sub Z.of_N Z.mul Z.add]. rewrite He.
  unfold digitValue. do 2 f_equal. lia.
Qed.

Lemma parseNote_at_digit (before : jsstring) (d : N) (after : jsstring) :
  noDigit before = true ->
  isDigit d = true ->
  parseNote (before ++ d :: after)
  = NoteNumber
      (Num match after with
           | k :: e :: _ =>
               if (k =? COMMA)%N && isDigit e
               then (10 * digitValue d + digitValue e) # 10
               else digitValue d # 1
           | _ => digitValue d # 1
           end).
Proof.
  intros Hno Hd. unfold parseNote. rewrite matchRating_skip by exact Hno.
  cbn [matchRating]. rewrite Hd.
  destruct after as [|k [|e tail]];
    try (now rewrite parseFloat_digit).
  destruct ((k =? COMMA)%N && isDigit e) eqn:Hke;
    [|now rewrite parseFloat_digit].
  apply andb_true_iff in Hke as [Hk He]. apply N.eqb_eq in Hk. subst k.
  now rewrite parseFloat_tenths.
Qed.

Lemma first_digit (text : jsstring) :
  noDigit text = true
  \/ exists before d after,
       text = before ++ d :: after
       /\ noDigit before = true /\ isDigit d = true.
Proof.
  induction text as [|c text IH]; [now left|].
  destruct (isDigit c) eqn:Hc.
  - right. exists [], c, text. auto.
  - destruct IH as [Hno|(before & d & after & -> & Hno & Hd)].
    + left. simpl. now rewrite Hc.
    + right. exists (c :: before), d, after. simpl. rewrite Hc. auto.
Qed.

(** X5.  The rating is read at the first digit of the text and nowhere
    else: it is that digit, or, when a comma and a digit follow it, that
    digit and the tenths; whatever comes before (without digit) or after
    is ignored, so a second digit that follows at once is dropped. *)
Theorem rating_read_at_first_digit (before : jsstring) (d : N)
  (after : jsstring) :
  noDigit before = true ->
  isDigit d = true ->
  parseNote (before ++ d :: after)
  = NoteNumber
      (Num match after with
           | k :: e :: _ =>
               if (k =? COMMA)%N && isDigit e
               then (10 * digitValue d + digitValue e) # 10
               else digitValue d # 1
           | _ => digitValue d # 1
           end).
Proof. apply parseNote_at_digit. Qed.

Lemma rating_read_at_first_digit_witness :
  parseNote (js "Note : 10 sur 10") = NoteNumber (Num 1)
  /\ parseNote (js "3,75") = NoteNumber (Num 3.7).
Proof.
  split.
  - apply (rating_read_at_first_digit (js "Note : ") 49%N (js "0 sur 10"));
      reflexivity.
  - apply (rating_read_at_first_digit [] 51%N (js ",75")); reflexivity.
Defined.

(** X6.  Whatever the text, the rating is either the empty default, when
    the text has no digit, or a number from 0 to 9.9; it is never [NaN]. *)
Theorem rating_range (text : jsstring) :
  (noDigit text = true /\ parseNote text = NoteEmpty)
  \/ (noDigit text = false
      /\ exists q, parseNote text = NoteNumber (Num q)
                   /\ (0 <= q)%Q /\ (q <= 9.9)%Q).
Proof.
  destruct (first_digit text) as [Hno|(before & d & after & -> & Hno & Hd)].
  - left. split; [exact Hno|now apply parseNote_noDigit].
  - right. split.
    + unfold noDigit. rewrite forallb_app. simpl. rewrite Hd. simpl.
      apply andb_false_r.
    + eexists. split; [now apply parseNote_at_digit|].
      pose proof (proj1 (isDigit_bounds d) Hd) as Bd.
      assert (Hone : (0 <= digitValue d # 1)%Q /\ (digitValue d # 1 <= 9.9)%Q).
      { unfold Qle, digitValue. cbn [Qnum Qden]. lia. }
      destruct after as [|k [|e tail]]; try exact Hone.
      destruct ((k =? COMMA)%N && isDigit e) eqn:Hke; [|exact Hone].
      apply andb_true_iff in Hke as [_ He].
      pose proof (proj1 (isDigit_bounds e) He) as Be.
      unfold Qle, digitValue. cbn [Qnum Qden]. lia.
Qed.

(** ** The distribution of the notes (lines 203-206) *)

Lemma Note_eqb_refl (k : Note) : Note_eqb k k = true.
Proof.
  destruct k as [|[|q]]; simpl; try reflexivity.
  apply Qeq_bool_iff. reflexivity.
Qed.

Lemma Note_eqb_sym (a b : Note) : Note_eqb a b = Note_eqb b a.
Proof.
  destruct a as [|[|p]], b as [|[|q]]; simpl; try reflexivity.
  destruct (Qeq_bool p q) eqn:E1, (Qeq_bool q p) eqn:E2; try reflexivity.
  - apply Qeq_bool_iff in E1. symmetry in E1. apply Qeq_bool_iff in E1.
    congruence.
  - apply Qeq_bool_iff in E2. symmetry in E2. apply Qeq_bool_iff in E2.
    congruence.
Qed.

Lemma Note_eqb_trans (a b c : Note) :
  Note_eqb a b = true -> Note_eqb b c = true -> Note_eqb a c = true.
Proof.
  destruct a as [|[|p]], b as [|[|q]], c as [|[|r]]; simpl;
    try reflexivity; try discriminate.
  rewrite !Qeq_bool_iff. intros H1 H2. now rewrite H1.
Qed.

Lemma Note_eqb_same_class (k a b : Note) :
  Note_eqb a b = true -> Note_eqb k a = Note_eqb k b.
Proof.
  intros Hab.
  destruct (Note_eqb k a) eqn:Ha, (Note_eqb k b) eqn:Hb; try reflexivity.
  - rewrite (Note_eqb_trans k a b Ha Hab) in Hb. discriminate.
  - rewrite Note_eqb_sym in Hab.
    rewrite (Note_eqb_trans k b a Hb Hab) in Ha. discriminate.
Qed.

Lemma bump_sum (k : Note) (stats : list (Note * nat)) :
  list_sum (map snd (bump k stats)) = S (list_sum (map snd stats)).
Proof.
  induction stats as [|[k' n] rest IH]; simpl; [reflexivity|].
  destruct (Note_eqb k k'); simpl; [lia|]. rewrite IH. lia.
Qed.

Lemma bump_positive (k : Note) (stats : list (Note * nat)) :
  Forall (fun entry => 1 <= snd entry) stats ->
  Forall (fun entry => 1 <= snd entry) (bump k stats).
Proof.
  induction 1 as [|[k' n] rest Hn Hrest IH]; simpl.
  - repeat constructor.
  - destruct (Note_eqb k k'); constructor; simpl in *; try lia; assumption.
Qed.

Lemma statOf_bump (k k' : Note) (stats : list (Note * nat)) :
  statOf k (bump k' stats)
  = statOf k stats + (if Note_eqb k k' then 1 else 0).
Proof.
  induction stats as [|[k0 n] rest IH]; simpl.
  - destruct (Note_eqb k k'); reflexivity.
  - destruct (Note_eqb k' k0) eqn:H0; simpl.
    + rewrite (Note_eqb_same_class k k' k0 H0).
      destruct (Note_eqb k k0); lia.
    + destruct (Note_eqb k k0) eqn:Hk; [|exact IH].
      destruct (Note_eqb k k') eqn:Hk'; [|lia].
      rewrite Note_eqb_sym in Hk'.
      rewrite (Note_eqb_trans k' k k0 Hk' Hk) in H0. discriminate.
Qed.

Lemma fold_bump (reviews : list Review) :
  forall stats,
    let final := fold_left (fun acc review => bump (note review) acc)
                   reviews stats in
    list_sum (map snd final) = list_sum (map snd stats) + length reviews
    /\ (forall k, statOf k final = statOf k stats + rated k reviews)
    /\ (Forall (fun entry => 1 <= snd entry) stats ->
        Forall (fun entry => 1 <= snd entry) final).
Proof.
  induction reviews as [|review reviews IH]; intros stats; cbv zeta.
  - simpl. unfold rated. simpl. repeat split; try lia. auto.
  - simpl fold_left. destruct (IH (bump (note review) stats)) as (Hs & Hk & Hp).
    split; [|split].
    + rewrite Hs, bump_sum. simpl. lia.
    + intros k. rewrite Hk, statOf_bump. unfold rated. simpl.
      rewrite (Note_eqb_sym (note review) k).
      destruct (Note_eqb k (note review)); simpl; lia.
    + intros H. apply Hp. now apply bump_positive.
Qed.

(** X7.  The distribution of the notes accounts for every record once:
    its counts add up to the number of records, the count filed under a
    note is the number of records with that note (the empty note
    included), and no count listed is 0. *)
Theorem noteStats_counts (reviews : list Review) :
  list_sum (map snd (noteStatsOf reviews)) = length reviews
  /\ (forall k, statOf k (noteStatsOf reviews) = rated k reviews)
  /\ Forall (fun entry => 1 <= snd entry) (noteStatsOf reviews).
Proof.
  destruct (fold_bump reviews []) as (Hs & Hk & Hp).
  split; [exact Hs|]. split; [exact Hk|]. apply Hp. constructor.
Qed.

(** ** Which containers are discarded *)

Lemma textOf_empty (found : option Element) :
  textOf found = [] <-> blankField found = true.
Proof.
  destruct found as [elem|]; simpl; [apply cleanText_nil|tauto].
Qed.

(** X8.  A container is discarded exactly when its title element and its
    body element are each missing or hold nothing but white space; the
    rating, date, author and badge play no part. *)
Theorem discarded_iff_blank (count pageNo index : nat) (r : Container) :
  extractReview count pageNo index r = None
  <-> blankField (firstMatch r titleSelectors) = true
      /\ blankField (firstMatch r textSelectors) = true.
Proof.
  rewrite extractReview_keeps. unfold keeps.
  rewrite <- !textOf_empty, <- !truthy_false.
  destruct (truthy (textOf (firstMatch r titleSelectors)));
    destruct (truthy (textOf (firstMatch r textSelectors))); simpl;
    split; try discriminate; try tauto; intros [? ?]; discriminate.
Qed.

(** ** More on the driver, on any surface *)

Lemma tidy_nil : tidy [].
Proof.
  repeat split.
  - intros c rest E. discriminate.
  - intros front c E. destruct front; discriminate.
  - intros c [].
  - intros front a b back E. destruct front; discriminate.
Qed.

Lemma textOf_tidy (found : option Element) : tidy (textOf found).
Proof.
  destruct found as [elem|]; simpl; [apply cleanText_is_tidy|apply tidy_nil].
Qed.

Lemma forEachReview_tidy (count pageNo : nat) (rs : list Container) :
  forall index, Forall tidyRecord (forEachReview count pageNo index rs).
Proof.
  intros index. apply Forall_forall. intros review Hin.
  destruct (forEachReview_In _ _ _ _ _ Hin) as (k & r & _ & Hx).
  apply extractReview_Some in Hx as [-> _].
  repeat split; apply textOf_tidy.
Qed.

Lemma sorted_repeat (p n : nat) : StronglySorted le (repeat p n).
Proof.
  induction n as [|n IH]; simpl; constructor; [exact IH|].
  apply Forall_forall. intros x Hx. apply repeat_spec in Hx. lia.
Qed.

Lemma sorted_app_repeat (l : list nat) (lo p n : nat) :
  lo <= p ->
  StronglySorted le l ->
  Forall (fun x => lo <= x <= p) l ->
  StronglySorted le (l ++ repeat p n)
  /\ Forall (fun x => lo <= x <= p) (l ++ repeat p n).
Proof.
  intros Hlo Hsorted Hbound. split.
  - induction Hsorted as [|a l Hl IH Ha]; simpl; [apply sorted_repeat|].
    apply Forall_cons_iff in Hbound as [Hab Hbound].
    constructor; [now apply IH|].
    apply Forall_app. split; [exact Ha|].
    apply Forall_forall. intros x Hx. apply repeat_spec in Hx. lia.
  - apply Forall_app. split; [exact Hbound|].
    apply Forall_forall. intros x Hx. apply repeat_spec in Hx. lia.
Qed.

Section MoreDriverFacts.

Context {W : Type} {browser : Surface W}.

Implicit Types s : State W.

(** *** What a run prints and where it goes *)

Lemma pageLoop_trace (fuel : nat) s s' :
  pageLoop fuel s = Some s' ->
  currentPage s <= currentPage s'
  /\ (currentPage s' = currentPage s \/ currentPage s' <= MAX_PAGES)
  /\ exists entries,
       console s' = console s ++ entries
       /\ detectedPages entries
          = seq (currentPage s + 1) (currentPage s' - currentPage s)
       /\ quiet entries = true.
Proof.
  apply (pageLoop_preserves
           (fun x =>
              currentPage s <= currentPage x
              /\ (currentPage x = currentPage s \/ currentPage x <= MAX_PAGES)
              /\ exists entries,
                   console x = console s ++ entries
                   /\ detectedPages entries
                      = seq (currentPage s + 1) (currentPage x - currentPage s)
                   /\ quiet entries = true)).
  - intros a b Hmore Hbody (Hle & _ & entries & Hcons & Hdet & Hquiet).
    destruct (loopBody_shape a Hmore) as
      (attempts & s3 & b' & _ & Hbody' & _ & _ & _ & _ & Hpage & _ & _
       & e1 & Hcons1 & Hdet1 & Hquiet1).
    rewrite Hbody in Hbody'. injection Hbody' as <-.
    apply morePages_true in Hmore as [_ Hlt].
    split; [lia|]. split; [right; lia|].
    exists (entries ++ e1). rewrite Hcons1, Hcons, <- app_assoc.
    split; [reflexivity|].
    rewrite detectedPages_app, quiet_app, Hdet, Hdet1, Hquiet, Hquiet1, Hpage.
    split; [|reflexivity].
    replace (currentPage a + 1 - currentPage s)
      with (S (currentPage a - currentPage s)) by lia.
    rewrite seq_S. do 2 f_equal. lia.
  - split; [lia|]. split; [now left|].
    exists []. rewrite app_nil_r, Nat.sub_diag. repeat split.
Qed.

Lemma run_trace s s' :
  isProcessing s = false ->
  processAllPages s = Some s' ->
  currentPage s <= currentPage s'
  /\ (currentPage s' = currentPage s \/ currentPage s' <= MAX_PAGES)
  /\ exists entries,
       console s' = console s ++ entries
       /\ detectedPages entries
          = seq (currentPage s) (currentPage s' - currentPage s + 1)
       /\ quiet entries = true.
Proof.
  intros Hidle Hrun.
  destruct (processAllPages_run s s' Hidle Hrun) as (s3 & Hloop & ->).
  apply pageLoop_trace in Hloop as (Hle & Hmax & entries & Hcons & Hdet & Hq).
  destruct (report_shape s3) as (_ & Hcp & _ & _ & Hrep).
  cbn [currentPage console setIsProcessing firstPage
       extractReviewsFromCurrentPage log setAllReviews] in *.
  rewrite Hcp. split; [exact Hle|]. split; [exact Hmax|].
  rewrite Hrep, Hcons. eexists. rewrite <- !app_assoc.
  split; [reflexivity|].
  rewrite !detectedPages_app, !quiet_app, Hdet, Hq. split; [|reflexivity].
  cbn [detectedPages app]. rewrite app_nil_r.
  replace (currentPage s3 - currentPage s + 1)
    with (S (currentPage s3 - currentPage s)) by lia.
  cbn [seq]. now rewrite Nat.add_1_r.
Qed.

(** X9.  [goToNextPage] succeeds exactly when [hasNextPage] holds of the
    same document, and does nothing otherwise; so the [break] of lines
    173-176 is never taken, and a run that passes the guard prints
    neither that failure nor the one of the [catch]. *)
Theorem run_reports_no_failure :
  (forall s, fst (goToNextPage s) = hasNextPage (document (surface s)))
  /\ (forall s, hasNextPage (document (surface s)) = false ->
                snd (goToNextPage s) = s)
  /\ (forall s s',
        isProcessing s = false ->
        processAllPages s = Some s' ->
        exists entries,
          console s' = console s ++ entries /\ quiet entries = true).
Proof.
  split; [|split].
  - intros s. destruct (hasNextPage (document (surface s))) eqn:H.
    + now rewrite goToNextPage_yes.
    + now rewrite goToNextPage_no.
  - intros s H. now rewrite goToNextPage_no.
  - intros s s' Hidle Hrun.
    destruct (run_trace s s' Hidle Hrun) as (_ & _ & entries & Hc & _ & Hq).
    exists entries. split; assumption.
Qed.

(** X10.  A run that passes the guard extracts the pages numbered from
    the page counter it starts with up to the one it ends with, each once
    and in order; the counter never goes down, and when it moves it stays
    within [MAX_PAGES]. *)
Theorem pages_visited_in_order s s' :
  isProcessing s = false ->
  processAllPages s = Some s' ->
  currentPage s <= currentPage s'
  /\ (currentPage s' = currentPage s \/ currentPage s' <= MAX_PAGES)
  /\ exists entries,
       console s' = console s ++ entries
       /\ detectedPages entries
          = seq (currentPage s) (currentPage s' - currentPage s + 1).
Proof.
  intros Hidle Hrun.
  destruct (run_trace s s' Hidle Hrun) as (Hle & Hmax & entries & Hc & Hd & _).
  split; [exact Hle|]. split; [exact Hmax|]. exists entries. now split.
Qed.

(** *** The order of the records *)

Lemma pageLoop_sorted (lo fuel : nat) s s' :
  lo <= currentPage s ->
  StronglySorted le (map page (allReviews s)) ->
  Forall (fun p => lo <= p <= currentPage s) (map page (allReviews s)) ->
  pageLoop fuel s = Some s' ->
  StronglySorted le (map page (allReviews s'))
  /\ Forall (fun p => lo <= p <= currentPage s') (map page (allReviews s')).
Proof.
  intros Hlo Hsorted Hbound Hloop.
  apply (pageLoop_preserves
           (fun x =>
              lo <= currentPage x
              /\ StronglySorted le (map page (allReviews x))
              /\ Forall (fun p => lo <= p <= currentPage x)
                   (map page (allReviews x))))
    with (s' := s') in Hloop; [tauto| |tauto].
  intros a b Hmore Hbody (Ha & Hsa & Hba).
  destruct (loopBody_shape a Hmore) as
    (attempts & s3 & b' & _ & Hbody' & _ & _ & _ & Hall & Hpage & _).
  rewrite Hbody in Hbody'. injection Hbody' as <-.
  rewrite Hall, Hpage, map_app, forEachReview_page.
  split; [lia|]. apply sorted_app_repeat; [lia|exact Hsa|].
  eapply Forall_impl; [|exact Hba]. simpl. intros p Hp. lia.
Qed.

(** X11.  The records of a run are in page order.  If the records a run
    starts with are ordered by their [page] field and none is beyond the
    page counter, the same holds when the run returns; from the loaded
    script, every [page] field lies between 1 and the final page counter,
    which is at most [MAX_PAGES]. *)
Theorem records_in_page_order :
  (forall s s',
      isProcessing s = false ->
      StronglySorted le (map page (allReviews s)) ->
      Forall (fun review => page review <= currentPage s) (allReviews s) ->
      processAllPages s = Some s' ->
      StronglySorted le (map page (allReviews s'))
      /\ Forall (fun review => page review <= currentPage s') (allReviews s'))
  /\ (forall (w0 : W) s',
        processAllPages (loaded w0) = Some s' ->
        StronglySorted le (map page (allReviews s'))
        /\ Forall (fun review => 1 <= page review <= currentPage s')
             (allReviews s')
        /\ currentPage s' <= MAX_PAGES).
Proof.
  assert (Hgen : forall lo s s',
             isProcessing s = false ->
             lo <= currentPage s ->
             StronglySorted le (map page (allReviews s)) ->
             Forall (fun p => lo <= p <= currentPage s)
               (map page (allReviews s)) ->
             processAllPages s = Some s' ->
             StronglySorted le (map page (allReviews s'))
             /\ Forall (fun p => lo <= p <= currentPage s')
                  (map page (allReviews s'))).
  { intros lo s s' Hidle Hlo Hsorted Hbound Hrun.
    destruct (processAllPages_run s s' Hidle Hrun) as (s3 & Hloop & ->).
    destruct (report_shape s3) as (Hall & Hcp & _).
    cbn [allReviews currentPage setIsProcessing]. rewrite Hall, Hcp.
    pose proof (fun n => sorted_app_repeat _ lo (currentPage s) n
                           Hlo Hsorted Hbound) as Hfirst.
    apply (pageLoop_sorted lo) in Hloop; [exact Hloop|exact Hlo| |];
      cbn [allReviews currentPage firstPage extractReviewsFromCurrentPage
           log setAllReviews setIsProcessing];
      rewrite map_app, forEachReview_page; apply Hfirst. }
  split.
  - intros s s' Hidle Hsorted Hbound Hrun.
    destruct (Hgen 0 s s' Hidle (Nat.le_0_l _) Hsorted) as [H1 H2];
      [|exact Hrun|].
    + apply Forall_map. eapply Forall_impl; [|exact Hbound].
      simpl. intros review Hr. lia.
    + split; [exact H1|]. apply Forall_map in H2.
      eapply Forall_impl; [|exact H2]. simpl. intros review Hr. lia.
  - intros w0 s' Hrun.
    destruct (Hgen 1 (loaded w0) s' eq_refl) as [H1 H2];
      [reflexivity|constructor|constructor|exact Hrun|].
    split; [exact H1|]. split; [now apply Forall_map in H2|].
    destruct (run_trace (loaded w0) s' eq_refl Hrun) as (_ & [E|Hmax] & _);
      [rewrite E; cbn; unfold MAX_PAGES; lia|exact Hmax].
Qed.

(** X12.  Every text field of every extracted record is normalised, and a
    run keeps a collection of such records one. *)
Theorem record_fields_are_tidy :
  (forall s review,
      In review (fst (extractReviewsFromCurrentPage s)) -> tidyRecord review)
  /\ (forall s s',
        Forall tidyRecord (allReviews s) ->
        processAllPages s = Some s' ->
        Forall tidyRecord (allReviews s')).
Proof.
  split.
  - intros s review Hin. rewrite extract_fst in Hin.
    pose proof (forEachReview_tidy (length (allReviews s)) (currentPage s)
                  (findReviewElements (document (surface s)) reviewSelectors) 0)
      as Hall.
    rewrite Forall_forall in Hall. now apply Hall.
  - intros s s' Hinit Hrun. destruct (isProcessing s) eqn:Hflag.
    + rewrite processAllPages_rejected in Hrun by exact Hflag.
      now injection Hrun as <-.
    + destruct (processAllPages_run s s' Hflag Hrun) as (s3 & Hloop & ->).
      destruct (report_shape s3) as (Hall & _).
      cbn [allReviews setIsProcessing]. rewrite Hall.
      apply (pageLoop_preserves (fun x => Forall tidyRecord (allReviews x)))
        with (s' := s3) in Hloop; [exact Hloop| |].
      * intros a b Hmore Hbody Ha.
        destruct (loopBody_shape a Hmore) as
          (attempts & s3' & b' & _ & Hbody' & _ & _ & _ & Hallb & _).
        rewrite Hbody in Hbody'. injection Hbody' as <-.
        rewrite Hallb. apply Forall_app. split; [exact Ha|].
        apply forEachReview_tidy.
      * cbn. apply Forall_app. split; [exact Hinit|].
        apply forEachReview_tidy.
Qed.

(** *** Single-page mode and runs of one page *)

Lemma added_one (before : list LogEntry) (entry : LogEntry) :
  SinglePage.added before (before ++ [entry]) = [entry].
Proof.
  unfold SinglePage.added. rewrite skipn_app, skipn_all, Nat.sub_diag.
  reflexivity.
Qed.

(** X13.  Single-page mode has no guard and assigns no global: whatever
    the running flag, it returns the records of the page shown that are
    not discarded, numbered after the accumulated records and stamped
    with the page counter, prints their number, and leaves records, page
    counter, flag and surface as they are; so calling it again on the same
    page returns the same records. *)
Theorem single_page_mode s :
  exists reviews s' found,
    SinglePage.scrapCurrentPageOnly s
    = (reviews, s',
       [SinglePage.Banner;
        SinglePage.Extractor (LogDetected (currentPage s) found);
        SinglePage.Count (length reviews);
        SinglePage.Json reviews])
    /\ length reviews = yield (document (surface s))
    /\ length reviews <= found
    /\ map page reviews = repeat (currentPage s) (length reviews)
    /\ Forall (fun review => length (allReviews s) < id review) reviews
    /\ allReviews s' = allReviews s
    /\ currentPage s' = currentPage s
    /\ isProcessing s' = isProcessing s
    /\ surface s' = surface s
    /\ fst (fst (SinglePage.scrapCurrentPageOnly s')) = reviews.
Proof.
  unfold SinglePage.scrapCurrentPageOnly, extractReviewsFromCurrentPage.
  cbn [log console allReviews currentPage surface isProcessing fst].
  rewrite added_one.
  do 3 eexists. split; [reflexivity|].
  rewrite forEachReview_page, !forEachReview_length.
  split; [reflexivity|]. split; [apply filter_length_le|].
  split; [reflexivity|]. split; [|repeat split].
  apply Forall_forall. intros review Hin.
  apply forEachReview_id_lower in Hin. lia.
Qed.

(** X14.  When the page shown has no enabled "next" control, or the page
    counter has reached [MAX_PAGES], a run that passes the guard does what
    single-page mode does and no more: it adds the records of that page
    to the collection, and neither clicks nor waits nor moves the page
    counter. *)
Theorem run_of_one_page s :
  isProcessing s = false ->
  hasNextPage (document (surface s)) = false \/ MAX_PAGES <= currentPage s ->
  exists s',
    processAllPages s = Some s'
    /\ allReviews s'
       = allReviews s ++ fst (fst (SinglePage.scrapCurrentPageOnly s))
    /\ currentPage s' = currentPage s
    /\ surface s' = surface s
    /\ isProcessing s' = false
    /\ detectedPages (SinglePage.added (console s) (console s'))
       = [currentPage s].
Proof.
  intros Hidle Hstop.
  assert (Hmore : morePages
                    (firstPage (log LogStart (setIsProcessing true s)))
                  = false).
  { unfold morePages.
    cbn [firstPage extractReviewsFromCurrentPage surface currentPage log
         setAllReviews setIsProcessing].
    apply andb_false_iff.
    destruct Hstop as [H|H]; [now left|right; apply Nat.ltb_ge; exact H]. }
  rewrite processAllPages_started by exact Hidle.
  rewrite (pageLoop_stop _ _ Hmore). eexists. split; [reflexivity|].
  repeat split. unfold report.
  cbn [console log setIsProcessing firstPage extractReviewsFromCurrentPage
       setAllReviews allReviews currentPage surface].
  unfold SinglePage.added. rewrite <- !app_assoc.
  rewrite skipn_app, skipn_all, Nat.sub_diag. reflexivity.
Qed.

(** *** The length of the wait *)

Lemma wait_exact s (k : nat) :
  1 <= k <= maxAttempts ->
  (forall j, 1 <= j < k -> reviewsShown (polls j (surface s)) = []) ->
  reviewsShown (polls k (surface s)) <> [] \/ k = maxAttempts ->
  waitForPageLoad s
  = Some (k, log (LogLoaded (currentPage s)
                    (length (reviewsShown (polls k (surface s)))))
               (setSurface (polls k (surface s)) s)).
Proof.
  intros Hk Hbefore Hlast.
  destruct (waitForPageLoad_spec s) as
    (attempts & s' & Hwait & Hbound & Hs' & Hnone & Hend).
  assert (attempts = k) as ->; [|now rewrite Hwait, Hs'].
  destruct (Nat.lt_trichotomy attempts k) as [Hlt|[Heq|Hgt]];
    [|exact Heq|].
  - destruct Hend as [Hend|Hend]; [|lia].
    exfalso. apply Hend. apply Hbefore. lia.
  - destruct Hlast as [Hlast|Hlast]; [|lia].
    exfalso. apply Hlast. apply Hnone. lia.
Qed.

(** X15.  The wait lasts exactly as many polls as it takes for a
    container to show: if the [k]-th poll (of at most 30) is the first to
    see one, or is the 30th, the wait ends at that poll, having let [k]
    intervals pass, and prints the number of containers seen then. *)
Theorem wait_ends_at_first_sighting s (k : nat) :
  1 <= k <= maxAttempts ->
  (forall j, 1 <= j < k -> reviewsShown (polls j (surface s)) = []) ->
  reviewsShown (polls k (surface s)) <> [] \/ k = maxAttempts ->
  exists s',
    waitForPageLoad s = Some (k, s')
    /\ surface s' = polls k (surface s)
    /\ console s'
       = console s
         ++ [LogLoaded (currentPage s)
               (length (reviewsShown (polls k (surface s))))].
Proof.
  intros Hk Hbefore Hlast. eexists.
  split; [now apply wait_exact|]. split; reflexivity.
Qed.

(** X16.  The wait looks for containers of the first markup variant only.
    On a page whose reviews are found by the fallback selectors alone, it
    runs out its 30 polls and reports 0 reviews, and the extraction that
    follows still returns the records of that page. *)
Theorem wait_misses_markup_variants s :
  (forall j, 1 <= j <= maxAttempts ->
             reviewsShown (polls j (surface s)) = []) ->
  exists s',
    waitForPageLoad s = Some (maxAttempts, s')
    /\ console s' = console s ++ [LogLoaded (currentPage s) 0]
    /\ fst (extractReviewsFromCurrentPage s')
       = forEachReview (length (allReviews s)) (currentPage s) 0
           (findReviewElements (document (polls maxAttempts (surface s)))
              [".review"; ".a-section.review"]%string).
Proof.
  intros Hnone.
  assert (Hlast : reviewsShown (polls maxAttempts (surface s)) = []).
  { apply Hnone. unfold maxAttempts. lia. }
  eexists. split.
  - apply wait_exact; [unfold maxAttempts; lia| |now right].
    intros j Hj. apply Hnone. lia.
  - cbn [console log setSurface]. rewrite Hlast. split; [reflexivity|].
    rewrite extract_fst.
    cbn [allReviews currentPage surface log setSurface].
    unfold reviewSelectors. cbn [findReviewElements].
    unfold reviewsShown in Hlast. now rewrite Hlast.
Qed.

End MoreDriverFacts.

(** ** Runs on a static site *)

Lemma pageMarks_length (ds : list Document) :
  forall pageNo, length (pageMarks pageNo ds) = list_sum (map yield ds).
Proof.
  induction ds as [|d ds IH]; intros pageNo; simpl; [reflexivity|].
  now rewrite length_app, repeat_length, IH.
Qed.

(** X18.  On a static site whose pages to come form a chain of fewer than
    [MAX_PAGES] pages after the one shown, a run from the loaded script
    extracts every page of the chain once, in order: the [page] fields are
    those of page 1, then those of page 2, and so on, one per record that
    is not discarded, and the number of records is the sum of what the
    pages yield. *)
Theorem static_site_run (d : Document) (ds rest : list Document) :
  chain d ds ->
  length ds < MAX_PAGES ->
  exists s',
    processAllPages (loaded {| shown := d; later := ds ++ rest |}) = Some s'
    /\ currentPage s' = 1 + length ds
    /\ map page (allReviews s') = pageMarks 1 (d :: ds)
    /\ length (allReviews s') = list_sum (map yield (d :: ds))
    /\ detectedPages (console s') = seq 1 (1 + length ds).
Proof.
  intros Hchain Hlen.
  set (site := {| shown := d; later := ds ++ rest |}).
  rewrite processAllPages_started by reflexivity.
  destruct (static_pageLoop rest ds d MAX_PAGES
              (firstPage (log LogStart (setIsProcessing true (loaded site)))))
    as (s3 & Hloop & Hpage & Hpages & entries & Hcons & Hdet & _);
    [reflexivity|exact Hchain|cbn; lia|lia|].
  rewrite Hloop. eexists. split; [reflexivity|].
  destruct (report_shape s3) as (Hall & Hcp & _ & _ & Hrep).
  cbn [currentPage allReviews console setIsProcessing].
  rewrite Hcp, Hall, Hrep, Hcons, Hpage.
  assert (Hmarks : map page (allReviews s3) = pageMarks 1 (d :: ds)).
  { rewrite Hpages.
    cbn [firstPage extractReviewsFromCurrentPage allReviews setAllReviews log
         setIsProcessing loaded currentPage surface app length].
    now rewrite forEachReview_page. }
  split; [reflexivity|]. split; [exact Hmarks|]. split.
  - now rewrite <- (length_map page), Hmarks, pageMarks_length.
  - rewrite !detectedPages_app, Hdet. cbn. now rewrite app_nil_r.
Qed.

(** ** The further properties on sample sites *)

Lemma cleanText_empty_iff_witness :
  cleanText [9%N; 32%N; 160%N; 8239%N] = [].
Proof. apply cleanText_empty_iff. reflexivity. Defined.

Lemma discarded_iff_blank_witness : extractReview 0 1 0 hollow = None.
Proof. apply discarded_iff_blank. split; reflexivity. Defined.

Lemma run_reports_no_failure_witness :
  exists s' entries,
    processAllPages (loaded twoPages) = Some s'
    /\ console s' = console (loaded twoPages) ++ entries
    /\ quiet entries = true.
Proof.
  destruct (processAllPages (loaded twoPages)) as [s'|] eqn:Hrun;
    [|vm_compute in Hrun; discriminate].
  destruct (@run_reports_no_failure Site StaticSite) as (_ & _ & H).
  destruct (H (loaded twoPages) s' eq_refl Hrun) as (entries & Hc & Hq).
  exists s', entries. repeat split; assumption.
Defined.

Lemma pages_visited_in_order_witness :
  exists s' entries,
    processAllPages (loaded fourPages) = Some s'
    /\ console s' = console (loaded fourPages) ++ entries
    /\ detectedPages entries = seq 1 (currentPage s' - 1 + 1).
Proof.
  destruct (processAllPages (loaded fourPages)) as [s'|] eqn:Hrun;
    [|vm_compute in Hrun; discriminate].
  destruct (pages_visited_in_order (loaded fourPages) s' eq_refl Hrun)
    as (_ & _ & entries & Hc & Hd).
  exists s', entries. repeat split; assumption.
Defined.

Lemma records_in_page_order_witness :
  exists s',
    processAllPages (loaded fourPages) = Some s'
    /\ StronglySorted le (map page (allReviews s'))
    /\ Forall (fun review => page review <= currentPage s') (allReviews s').
Proof.
  destruct (processAllPages (loaded fourPages)) as [s'|] eqn:Hrun;
    [|vm_compute in Hrun; discriminate].
  exists s'. split; [reflexivity|].
  destruct (@records_in_page_order Site StaticSite) as [H _].
  apply (H (loaded fourPages) s' eq_refl); [constructor|constructor|exact Hrun].
Defined.

Lemma record_fields_are_tidy_witness :
  exists s',
    processAllPages (loaded twoPages) = Some s'
    /\ Forall tidyRecord (allReviews s').
Proof.
  destruct (processAllPages (loaded twoPages)) as [s'|] eqn:Hrun;
    [|vm_compute in Hrun; discriminate].
  exists s'. split; [reflexivity|].
  destruct (@record_fields_are_tidy Site StaticSite) as [_ H].
  apply (H (loaded twoPages) s'); [constructor|exact Hrun].
Defined.

Lemma run_of_one_page_witness :
  exists s',
    processAllPages (loaded variantSite) = Some s'
    /\ map id (allReviews s') = [1; 2]
    /\ currentPage s' = 1
    /\ surface s' = variantSite.
Proof.
  destruct (run_of_one_page (loaded variantSite) eq_refl)
    as (s' & Hrun & Hall & Hpage & Hsurf & _); [left; reflexivity|].
  exists s'. split; [exact Hrun|]. rewrite Hall.
  repeat split; assumption.
Defined.

Lemma wait_ends_at_first_sighting_witness :
  exists s',
    waitForPageLoad (loaded slowPage) = Some (3, s')
    /\ console s' = [LogLoaded 1 1].
Proof.
  destruct (wait_ends_at_first_sighting (loaded slowPage) 3)
    as (s' & Hwait & _ & Hcons).
  - unfold maxAttempts. lia.
  - intros [|[|[|j]]] Hj; try lia; reflexivity.
  - left. vm_compute. discriminate.
  - exists s'. split; [exact Hwait|exact Hcons].
Defined.

Lemma wait_misses_markup_variants_witness :
  exists s',
    waitForPageLoad (loaded variantSite) = Some (30, s')
    /\ console s' = [LogLoaded 1 0]
    /\ map id (fst (extractReviewsFromCurrentPage s')) = [1; 2].
Proof.
  destruct (wait_misses_markup_variants (loaded variantSite))
    as (s' & Hwait & Hcons & Hx).
  - intros j _. cbn [surface loaded]. rewrite static_polls. reflexivity.
  - exists s'. split; [exact Hwait|]. split; [exact Hcons|].
    rewrite Hx. reflexivity.
Defined.

Lemma static_site_run_witness :
  exists s',
    processAllPages (loaded fourPages) = Some s'
    /\ currentPage s' = 4
    /\ length (allReviews s') = 10.
Proof.
  destruct (static_site_run
              (samplePage [good; good; good] true)
              [samplePage [good; good; good; good; good] true;
               samplePage [] true;
               samplePage [good; good] false] [])
    as (s' & Hrun & Hpage & _ & Hlen & _).
  - repeat split.
  - unfold MAX_PAGES. simpl. lia.
  - exists s'. split; [exact Hrun|]. split; [exact Hpage|exact Hlen].
Defined.

(** * Whole runs, turn by turn *)

Lemma detectedTotal_app (a b : list LogEntry) :
  detectedTotal (a ++ b) = detectedTotal a + detectedTotal b.
Proof.
  induction a as [|entry a IH]; simpl; [reflexivity|].
  destruct entry; simpl; rewrite ?IH; lia.
Qed.

Lemma navigations_app (a b : list LogEntry) :
  navigations (a ++ b) = navigations a ++ navigations b.
Proof.
  induction a as [|entry a IH]; simpl; [reflexivity|].
  destruct entry; simpl; now rewrite ?IH.
Qed.

Lemma filter_all_kept (rs : list Container) :
  length (filter keeps rs) = length rs ->
  Forall (fun r => keeps r = true) rs.
Proof.
  intros H. apply filter_length_forallb in H.
  apply Forall_forall. now apply forallb_forall.
Qed.

Section Turns.

Context {W : Type} {browser : Surface W}.

Implicit Types s : State W.

Lemma State_ext s1 s2 :
  allReviews s1 = allReviews s2 ->
  currentPage s1 = currentPage s2 ->
  totalPages s1 = totalPages s2 ->
  isProcessing s1 = isProcessing s2 ->
  surface s1 = surface s2 ->
  console s1 = console s2 ->
  s1 = s2.
Proof. destruct s1, s2. simpl. intros. subst. reflexivity. Qed.

(** A turn of the loop, whatever the surface does: the wait takes some
    number of polls, and the rest is [turnResult]. *)
Lemma loopBody_exact s :
  morePages s = true ->
  exists attempts,
    1 <= attempts <= maxAttempts
    /\ (forall j, 1 <= j < attempts ->
                  reviewsShown (polls j (click (surface s))) = [])
    /\ (reviewsShown (polls attempts (click (surface s))) <> []
        \/ attempts = maxAttempts)
    /\ loopBody s = Some (true, turnResult s attempts).
Proof.
  intros Hmore. apply morePages_true in Hmore as [Hnext _].
  unfold loopBody. cbv zeta.
  rewrite goToNextPage_yes by exact Hnext. cbn [negb].
  match goal with |- context [waitForPageLoad ?x] =>
    destruct (waitForPageLoad_spec x) as
      (attempts & s3 & Hwait & Hbound & Hs3 & Hnone & Hend) end.
  cbn [surface setCurrentPage currentPage log setSurface] in *.
  exists attempts. rewrite Hwait.
  split; [exact Hbound|]. split; [exact Hnone|]. split; [exact Hend|].
  do 2 f_equal. rewrite Hs3.
  unfold extractAndPause, extractReviewsFromCurrentPage, turnResult, morePages.
  cbv zeta.
  cbn [surface console allReviews currentPage totalPages isProcessing log
       setSurface setAllReviews setCurrentPage].
  destruct (hasNextPage (document (polls attempts (click (surface s))))
            && (currentPage s + 1 <? MAX_PAGES));
    apply State_ext;
    cbn [surface console allReviews currentPage totalPages isProcessing log
         setSurface setAllReviews setCurrentPage sleep];
    rewrite <- ?app_assoc; reflexivity.
Qed.

(** A property kept by [turnResult] is kept by the loop. *)
Lemma pageLoop_turns (P : State W -> Prop) :
  (forall s attempts,
      morePages s = true ->
      1 <= attempts <= maxAttempts ->
      (forall j, 1 <= j < attempts ->
                 reviewsShown (polls j (click (surface s))) = []) ->
      (reviewsShown (polls attempts (click (surface s))) <> []
       \/ attempts = maxAttempts) ->
      P s -> P (turnResult s attempts)) ->
  forall fuel s s', P s -> pageLoop fuel s = Some s' -> P s'.
Proof.
  intros Hturn. apply pageLoop_preserves.
  intros s s' Hmore Hbody HP.
  destruct (loopBody_exact s Hmore) as
    (attempts & Hbound & Hnone & Hend & Hexact).
  rewrite Hbody in Hexact. injection Hexact as ->.
  now apply Hturn.
Qed.

(** The loop is left only when its test fails. *)
Lemma pageLoop_exit (fuel : nat) :
  forall s s', pageLoop fuel s = Some s' -> morePages s' = false.
Proof.
  induction fuel as [|fuel IH]; intros s s' Hloop.
  - cbn [pageLoop] in Hloop. destruct (morePages s) eqn:Hmore;
      [discriminate|]. now injection Hloop as <-.
  - rewrite pageLoop_unfold in Hloop.
    destruct (morePages s) eqn:Hmore; [|now injection Hloop as <-].
    destruct (loopBody_exact s Hmore) as (attempts & _ & _ & _ & Hbody).
    rewrite Hbody in Hloop. exact (IH _ _ Hloop).
Qed.

(** *** Records and containers *)

Lemma pageLoop_discards (fuel : nat) s s' :
  length (allReviews s) <= detectedTotal (console s) ->
  (length (allReviews s) = detectedTotal (console s) ->
   numbered (allReviews s)) ->
  pageLoop fuel s = Some s' ->
  length (allReviews s') <= detectedTotal (console s')
  /\ (length (allReviews s') = detectedTotal (console s') ->
      numbered (allReviews s')).
Proof.
  intros Hle Hnum Hloop.
  apply (pageLoop_turns
           (fun x => length (allReviews x) <= detectedTotal (console x)
                     /\ (length (allReviews x) = detectedTotal (console x) ->
                         numbered (allReviews x))))
    with (s' := s') in Hloop; [exact Hloop| |now split].
  clear. intros s attempts _ _ _ _ [Hle Hnum].
  unfold turnResult. cbv zeta. cbn [allReviews console].
  set (found := findReviewElements
                  (document (polls attempts (click (surface s))))
                  reviewSelectors).
  rewrite length_app, forEachReview_length, !detectedTotal_app.
  assert (Hkept : length (filter keeps found) <= length found)
    by apply filter_length_le.
  assert (Htail : forall b : bool,
             detectedTotal (if b then [LogPause DELAY_BETWEEN_PAGES] else [])
             = 0) by (intros []; reflexivity).
  cbn [detectedTotal]. rewrite Htail.
  split; [lia|]. intros Heq.
  apply numbered_app; [apply filter_all_kept; lia|apply Hnum; lia].
Qed.

(** C3, as the code has it.  Every record extracted from a page has, as
    id, the number of records accumulated before that page plus the index
    of its container on the page plus 1; the ids of one page are pairwise
    distinct; and in a run from the loaded script that discards no
    container, that is, one that ends with as many records as its
    extractions found containers, the ids are 1, 2, 3, ... and so pairwise
    distinct. *)
Theorem ids_of_extracted_records :
  (forall s review,
      In review (fst (extractReviewsFromCurrentPage s)) ->
      exists index r,
        nth_error (findReviewElements (document (surface s)) reviewSelectors)
                  index = Some r
        /\ review = buildReview (length (allReviews s)) (currentPage s) index r
        /\ id review = length (allReviews s) + index + 1)
  /\ (forall s, NoDup (map id (fst (extractReviewsFromCurrentPage s))))
  /\ (forall (w0 : W) s',
        processAllPages (loaded w0) = Some s' ->
        length (allReviews s') <= detectedTotal (console s')
        /\ (length (allReviews s') = detectedTotal (console s') ->
            numbered (allReviews s') /\ NoDup (map id (allReviews s')))).
Proof.
  split; [|split].
  - intros s review Hin. rewrite extract_fst in Hin.
    destruct (forEachReview_In _ _ _ _ _ Hin) as (k & r & Hk & Hx).
    apply extractReview_Some in Hx as [-> _].
    exists k, r. repeat split; assumption.
  - intros s. rewrite extract_fst. apply forEachReview_ids_NoDup.
  - intros w0 s' Hrun.
    destruct (processAllPages_run (loaded w0) s' eq_refl Hrun)
      as (s3 & Hloop & ->).
    destruct (report_shape s3) as (Hall & _ & _ & _ & Hrep).
    cbn [allReviews console setIsProcessing].
    rewrite Hall, Hrep, detectedTotal_app. cbn [detectedTotal].
    rewrite Nat.add_0_r.
    apply pageLoop_discards in Hloop.
    + destruct Hloop as [Hle Hnum]. split; [exact Hle|].
      intros Heq. specialize (Hnum Heq). split; [exact Hnum|].
      rewrite Hnum. apply seq_NoDup.
    + cbn. rewrite forEachReview_length, Nat.add_0_r. apply filter_length_le.
    + cbn. rewrite forEachReview_length, Nat.add_0_r. intros Heq.
      apply (numbered_app [] 1); [now apply filter_all_kept|reflexivity].
Qed.

(** *** Clicks and announcements *)

Lemma travelled_polls (w0 w : W) (n k : nat) :
  travelled w0 n w -> travelled w0 n (polls k w).
Proof.
  intros H. unfold polls. induction k as [|k IH]; simpl;
    [exact H|now constructor].
Qed.

Lemma pageLoop_travel (w0 : W) (n0 fuel : nat) s s' :
  travelled w0 n0 (surface s) ->
  pageLoop fuel s = Some s' ->
  currentPage s <= currentPage s'
  /\ travelled w0 (n0 + (currentPage s' - currentPage s)) (surface s')
  /\ navigations (console s')
     = navigations (console s)
       ++ seq (currentPage s + 2) (currentPage s' - currentPage s).
Proof.
  intros Hstart Hloop.
  apply (pageLoop_turns
           (fun x =>
              currentPage s <= currentPage x
              /\ travelled w0 (n0 + (currentPage x - currentPage s)) (surface x)
              /\ navigations (console x)
                 = navigations (console s)
                   ++ seq (currentPage s + 2) (currentPage x - currentPage s)))
    with (s' := s') in Hloop; [exact Hloop| |].
  - clear Hloop. intros x attempts _ _ _ _ (Hle & Htravel & Hnav).
    unfold turnResult. cbv zeta. cbn [currentPage surface console].
    split; [lia|]. split.
    + replace (n0 + (currentPage x + 1 - currentPage s))
        with (S (n0 + (currentPage x - currentPage s))) by lia.
      assert (Harrived : travelled w0 (S (n0 + (currentPage x - currentPage s)))
                           (polls attempts (click (surface x)))).
      { apply travelled_polls. now constructor. }
      destruct (hasNextPage _ && _); [now constructor|exact Harrived].
    + rewrite !navigations_app, Hnav. cbn [navigations].
      assert (Htail : forall b : bool,
                 navigations (if b then [LogPause DELAY_BETWEEN_PAGES] else [])
                 = []) by (intros []; reflexivity).
      rewrite Htail, app_nil_r, <- app_assoc. f_equal.
      replace (currentPage x + 1 - currentPage s)
        with (S (currentPage x - currentPage s)) by lia.
      rewrite seq_S. do 2 f_equal. lia.
  - rewrite Nat.sub_diag, Nat.add_0_r, app_nil_r. repeat split.
    + lia.
    + exact Hstart.
Qed.

(** C5.  A run from the loaded script always comes to an end, normally:
    the final report is printed, no failure is, and the flag is cleared.
    It has then extracted pages 1 to [currentPage], each once, after one
    announced activation of the "next" control per page but the first,
    and [currentPage] is at most [MAX_PAGES] = 20.  If the control is
    still there when the run ends, which is what a control that is always
    there comes to, since the loop goes on only while [hasNextPage] holds,
    the run has stopped at the ceiling: exactly 20 pages, after 19
    activations. *)
Theorem ceiling_ends_the_run (w0 : W) :
  exists s',
    processAllPages (loaded w0) = Some s'
    /\ MAX_PAGES = 20
    /\ isProcessing s' = false
    /\ quiet (console s') = true
    /\ In (LogFinished (length (allReviews s')) (currentPage s')) (console s')
    /\ 1 <= currentPage s' <= MAX_PAGES
    /\ detectedPages (console s') = seq 1 (currentPage s')
    /\ navigations (console s') = seq 3 (currentPage s' - 1)
    /\ travelled w0 (currentPage s' - 1) (surface s')
    /\ (hasNextPage (document (surface s')) = true ->
        currentPage s' = MAX_PAGES
        /\ detectedPages (console s') = seq 1 MAX_PAGES
        /\ navigations (console s') = seq 3 (MAX_PAGES - 1)
        /\ travelled w0 (MAX_PAGES - 1) (surface s')).
Proof.
  destruct (processAllPages_total (loaded w0)) as [s' Hrun].
  exists s'. split; [exact Hrun|]. split; [reflexivity|].
  destruct (run_trace (loaded w0) s' eq_refl Hrun)
    as (Hle & Hmax & entries & Hcons & Hdet & Hquiet).
  destruct (processAllPages_run (loaded w0) s' eq_refl Hrun)
    as (s3 & Hloop & Hs').
  pose proof (pageLoop_exit _ _ _ Hloop) as Hexit.
  destruct (pageLoop_travel w0 0 MAX_PAGES
              (firstPage (log LogStart (setIsProcessing true (loaded w0))))
              s3 (travel_start w0) Hloop)
    as (_ & Htravel & Hnav).
  destruct (report_shape s3) as (Hall & Hcp & _ & Hsurf & Hrep).
  assert (Hpage : currentPage s' = currentPage s3) by (now rewrite Hs').
  assert (Hsurface : surface s' = surface s3) by (now rewrite Hs').
  assert (Hconsole : console s' = console (report s3)) by (now rewrite Hs').
  assert (Hrecords : allReviews s' = allReviews s3) by (now rewrite Hs').
  cbn [currentPage console loaded firstPage extractReviewsFromCurrentPage log
       setAllReviews setIsProcessing app navigations] in Hle, Hmax, Hcons,
    Hdet, Htravel, Hnav.
  assert (Hbound : 1 <= currentPage s' <= MAX_PAGES).
  { split; [exact Hle|]. destruct Hmax as [->|H]; [|exact H].
    unfold MAX_PAGES. lia. }
  assert (Hpages : detectedPages (console s') = seq 1 (currentPage s')).
  { rewrite Hcons, Hdet. f_equal. lia. }
  assert (Hclicks : navigations (console s') = seq 3 (currentPage s' - 1)).
  { rewrite Hconsole, Hrep, navigations_app, Hnav, Hpage. cbn [navigations].
    now rewrite app_nil_r. }
  assert (Hway : travelled w0 (currentPage s' - 1) (surface s')).
  { rewrite Hsurface, Hpage. exact Htravel. }
  split; [now rewrite Hs'|]. split; [now rewrite Hcons, Hquiet|].
  split.
  { rewrite Hconsole, Hrep, Hrecords, Hpage. apply in_or_app. right.
    left. reflexivity. }
  split; [exact Hbound|]. split; [exact Hpages|]. split; [exact Hclicks|].
  split; [exact Hway|].
  intros Hnext.
  assert (Hceiling : currentPage s' = MAX_PAGES).
  { unfold morePages in Hexit. rewrite <- Hsurface, Hnext in Hexit.
    cbn [andb] in Hexit. apply Nat.ltb_ge in Hexit. lia. }
  rewrite <- Hceiling. repeat split; assumption.
Qed.

(** *** One turn of the loop *)

(** X17.  A turn of the loop from page [p] clicks once, polls 1 to 30
    times, extracts, and pauses exactly when the loop test holds right
    after the extraction: the page that has arrived has an enabled "next"
    control and [p + 1] is below [MAX_PAGES].  It prints the navigation
    message with [p + 2], since the page counter was advanced before the
    message adds 1 to it, and the other messages with [p + 1]. *)
Theorem one_turn s :
  morePages s = true ->
  exists attempts s',
    loopBody s = Some (true, s')
    /\ 1 <= attempts <= maxAttempts
    /\ currentPage s' = currentPage s + 1
    /\ let arrived := polls attempts (click (surface s)) in
       let due := hasNextPage (document arrived)
                  && (currentPage s + 1 <? MAX_PAGES) in
       surface s'
       = (if due then elapse DELAY_BETWEEN_PAGES arrived else arrived)
       /\ console s'
          = console s
            ++ [LogNavigating (currentPage s + 2);
                LogLoaded (currentPage s + 1) (length (reviewsShown arrived));
                LogDetected (currentPage s + 1)
                  (length (findReviewElements (document arrived)
                             reviewSelectors));
                LogRunningTotal (length (allReviews s'))]
            ++ (if due then [LogPause DELAY_BETWEEN_PAGES] else []).
Proof.
  intros Hmore.
  destruct (loopBody_exact s Hmore) as (attempts & Hbound & _ & _ & Hbody).
  exists attempts, (turnResult s attempts).
  split; [exact Hbody|]. split; [exact Hbound|].
  replace (currentPage s + 2) with (currentPage s + 1 + 1) by lia.
  repeat split.
Qed.

End Turns.

(** * Runs over pages that are there when the wait ends *)

Section SettledSurfaces.

Context {W : Type} {browser : Surface W}.

Implicit Types s : State W.

(** [showing w pages]: the surface shows the first of [pages], and the
    others are the pages to come. *)
Variable showing : W -> list Document -> Prop.

Hypothesis showing_first :
  forall w d ds, showing w (d :: ds) -> document w = d.

(** A page shown stays until the next click. *)
Hypothesis showing_stays :
  forall w ms pages, showing w pages -> showing (elapse ms w) pages.

(** When the wait that follows a click ends, at the first poll that sees
    a container or at the 30th, the page asked for is the one shown. *)
Hypothesis showing_next :
  forall w d d' ds k,
    showing w (d :: d' :: ds) ->
    1 <= k <= maxAttempts ->
    (forall j, 1 <= j < k -> reviewsShown (polls j (click w)) = []) ->
    reviewsShown (polls k (click w)) <> [] \/ k = maxAttempts ->
    showing (polls k (click w)) (d' :: ds).

Lemma settled_pageLoop (rest : list Document) :
  forall (ds : list Document) (d : Document) (fuel : nat) s,
    showing (surface s) (d :: ds ++ rest) ->
    chain d ds ->
    currentPage s + length ds <= MAX_PAGES ->
    length ds <= fuel ->
    exists s',
      pageLoop fuel s = Some s'
      /\ currentPage s' = currentPage s + length ds
      /\ map page (allReviews s')
         = map page (allReviews s) ++ pageMarks (currentPage s + 1) ds
      /\ exists entries,
           console s' = console s ++ entries
           /\ detectedPages entries = seq (currentPage s + 1) (length ds)
           /\ navigations entries = seq (currentPage s + 2) (length ds)
           /\ quiet entries = true.
Proof.
  induction ds as [|d' ds IH]; intros d fuel s Hshow Hchain Hmax Hfuel.
  - exists s. split.
    + apply pageLoop_stop. unfold morePages.
      rewrite (showing_first _ _ _ Hshow). simpl in Hchain.
      now rewrite Hchain.
    + simpl. rewrite Nat.add_0_r, !app_nil_r. repeat split.
      exists []. now rewrite app_nil_r.
  - destruct Hchain as [Hnext Hchain]. simpl in Hmax, Hfuel, Hshow.
    destruct fuel as [|fuel]; [lia|].
    assert (Hmore : morePages s = true).
    { apply morePages_true. rewrite (showing_first _ _ _ Hshow).
      split; [exact Hnext|lia]. }
    destruct (loopBody_exact s Hmore) as
      (attempts & Hbound & Hnone & Hend & Hbody).
    pose proof (showing_next _ _ _ _ _ Hshow Hbound Hnone Hend) as Harrived.
    assert (Hafter : showing (surface (turnResult s attempts))
                       (d' :: ds ++ rest)).
    { unfold turnResult. cbv zeta. cbn [surface].
      destruct (hasNextPage _ && _); [now apply showing_stays|exact Harrived]. }
    destruct (IH d' fuel (turnResult s attempts) Hafter Hchain) as
      (s' & Hloop & Hlast & Hpages & e2 & Hcons2 & Hdet2 & Hnav2 & Hquiet2);
      [cbn [turnResult currentPage]; lia|lia|].
    exists s'. rewrite pageLoop_unfold, Hmore, Hbody.
    split; [exact Hloop|].
    unfold turnResult in Hlast, Hpages, Hcons2, Hdet2, Hnav2.
    cbv zeta in Hlast, Hpages, Hcons2, Hdet2, Hnav2.
    cbn [currentPage allReviews console] in Hlast, Hpages, Hcons2, Hdet2, Hnav2.
    rewrite (showing_first _ _ _ Harrived) in Hpages.
    split; [cbn [length]; lia|]. split.
    + rewrite Hpages, map_app, forEachReview_page. fold (yield d').
      cbn [pageMarks]. rewrite <- app_assoc.
      now rewrite (Nat.add_1_r (currentPage s + 1)).
    + eexists. rewrite Hcons2, <- !app_assoc. split; [reflexivity|].
      assert (Htail : forall b : bool,
                 detectedPages
                   (if b then [LogPause DELAY_BETWEEN_PAGES] else []) = []
                 /\ navigations
                      (if b then [LogPause DELAY_BETWEEN_PAGES] else []) = []
                 /\ quiet
                      (if b then [LogPause DELAY_BETWEEN_PAGES] else [])
                    = true) by (intros []; repeat split).
      match goal with |- context [if ?b then _ else _] =>
        destruct (Htail b) as (Hd & Hn & Hq) end.
      rewrite !detectedPages_app, !navigations_app, !quiet_app,
        Hd, Hn, Hq, Hdet2, Hnav2, Hquiet2.
      cbn [detectedPages navigations quiet forallb isFailure negb andb app
           length seq].
      replace (currentPage s + 1 + 1) with (S (currentPage s + 1)) by lia.
      replace (currentPage s + 1 + 2) with (S (currentPage s + 2)) by lia.
      replace (S (currentPage s + 1)) with (currentPage s + 2) by lia.
      repeat split.
Qed.

(** C4, as the code has it.  On a surface on which the page asked for by
    a click is the one shown whenever the wait that follows ends, and
    stays until the next click, a run from the loaded script over pages
    that yield 3, 5, 0 and 2 records, with a "next" control on the first
    three only, ends with 10 records whose [page] fields are
    1,1,1,2,2,2,2,2,4,4 in that order, after extracting pages 1, 2, 3 and
    4 and activating the control three times, with the page counter
    at 4. *)
Theorem four_pages_run (d1 d2 d3 d4 : Document) (rest : list Document)
  (w0 : W) :
  showing w0 (d1 :: d2 :: d3 :: d4 :: rest) ->
  yield d1 = 3 -> yield d2 = 5 -> yield d3 = 0 -> yield d4 = 2 ->
  hasNextPage d1 = true -> hasNextPage d2 = true ->
  hasNextPage d3 = true -> hasNextPage d4 = false ->
  exists s',
    processAllPages (loaded w0) = Some s'
    /\ length (allReviews s') = 10
    /\ map page (allReviews s') = [1; 1; 1; 2; 2; 2; 2; 2; 4; 4]
    /\ currentPage s' = 4
    /\ detectedPages (console s') = [1; 2; 3; 4]
    /\ navigations (console s') = [3; 4; 5]
    /\ quiet (console s') = true
    /\ isProcessing s' = false.
Proof.
  intros Hshow Hy1 Hy2 Hy3 Hy4 Hn1 Hn2 Hn3 Hn4.
  rewrite processAllPages_started by reflexivity.
  destruct (settled_pageLoop rest [d2; d3; d4] d1 MAX_PAGES
              (firstPage (log LogStart (setIsProcessing true (loaded w0)))))
    as (s3 & Hloop & Hpage & Hpages & entries & Hcons & Hdet & Hnav & Hquiet).
  - exact Hshow.
  - simpl. auto.
  - cbn. unfold MAX_PAGES. lia.
  - cbn. unfold MAX_PAGES. lia.
  - rewrite Hloop. eexists. split; [reflexivity|].
    destruct (report_shape s3) as (Hall & Hcp & _ & _ & Hrep).
    cbn [currentPage allReviews console isProcessing setIsProcessing].
    rewrite Hcp, Hall, Hrep, Hcons, Hpage.
    assert (Hmarks : map page (allReviews s3) = [1; 1; 1; 2; 2; 2; 2; 2; 4; 4]).
    { rewrite Hpages. cbn [firstPage extractReviewsFromCurrentPage allReviews
                             setAllReviews log setIsProcessing loaded
                             currentPage surface app length].
      rewrite forEachReview_page, (showing_first _ _ _ Hshow).
      fold (yield d1). cbn [pageMarks]. rewrite Hy1, Hy2, Hy3, Hy4.
      reflexivity. }
    split; [now rewrite <- (length_map page), Hmarks|].
    split; [exact Hmarks|]. split; [reflexivity|].
    rewrite !detectedPages_app, !navigations_app, !quiet_app,
      Hdet, Hnav, Hquiet.
    repeat split.
Qed.

End SettledSurfaces.

(** ** Pages that arrive late *)

Lemma lagging_rest (k : nat) (w : LaggingSite) :
  incoming w = None -> polls k w = w.
Proof.
  intros Hnone. unfold polls. induction k as [|k IH]; [reflexivity|].
  rewrite Nat.iter_succ, IH. cbn [elapse LaggingSurface].
  unfold laggingElapse. now rewrite Hnone.
Qed.

Lemma lagging_arrives (w : LaggingSite) (d : Document) (ds : list Document)
  (k : nat) :
  queued w = d :: ds ->
  (lag w <= POLL_INTERVAL)%N ->
  1 <= k ->
  polls k (click w)
  = {| onScreen := d; incoming := None; queued := ds; lag := lag w |}.
Proof.
  intros Hq Hlag Hk. destruct k as [|k]; [lia|].
  unfold polls. rewrite Nat.iter_succ_r. fold (polls k).
  assert (Hfirst : elapse POLL_INTERVAL (click w)
                   = {| onScreen := d; incoming := None;
                        queued := ds; lag := lag w |}).
  { cbn [elapse click LaggingSurface]. unfold laggingClick. rewrite Hq.
    unfold laggingElapse. cbn [incoming queued lag].
    apply N.leb_le in Hlag. now rewrite Hlag. }
  fold (polls k (elapse POLL_INTERVAL (click w))).
  rewrite Hfirst. now apply lagging_rest.
Qed.

Lemma settled_first (w : LaggingSite) (d : Document) (ds : list Document) :
  settled w (d :: ds) -> document w = d.
Proof. intros (_ & E & _). now injection E. Qed.

Lemma settled_stays (w : LaggingSite) (ms : N) (pages : list Document) :
  settled w pages -> settled (elapse ms w) pages.
Proof.
  intros (Hnone & E & Hlag). cbn [elapse LaggingSurface].
  unfold laggingElapse. rewrite Hnone. now repeat split.
Qed.

Lemma settled_next (w : LaggingSite) (d d' : Document) (ds : list Document)
  (k : nat) :
  settled w (d :: d' :: ds) ->
  1 <= k <= maxAttempts ->
  (forall j, 1 <= j < k -> reviewsShown (polls j (click w)) = []) ->
  reviewsShown (polls k (click w)) <> [] \/ k = maxAttempts ->
  settled (polls k (click w)) (d' :: ds).
Proof.
  intros (Hnone & E & Hlag) Hk _ _. injection E as _ Hq.
  rewrite (lagging_arrives w d' ds k Hq Hlag) by lia.
  now repeat split.
Qed.

Lemma four_pages_run_witness :
  exists s',
    processAllPages (loaded promptSite) = Some s'
    /\ length (allReviews s') = 10
    /\ map page (allReviews s') = [1; 1; 1; 2; 2; 2; 2; 2; 4; 4]
    /\ currentPage s' = 4
    /\ detectedPages (console s') = [1; 2; 3; 4]
    /\ navigations (console s') = [3; 4; 5]
    /\ quiet (console s') = true
    /\ isProcessing s' = false.
Proof.
  apply (four_pages_run settled settled_first settled_stays settled_next
           pageOfThree pageOfFive pageOfNone pageOfTwo [] promptSite);
    try reflexivity.
  repeat split. vm_compute. discriminate.
Defined.

(** C4 as stated fails: when each of the same four pages arrives 1500 ms
    after its click, the first poll of every wait still sees the page that
    was there before, so that page is extracted again under the next page
    number, and the run ends with 13 records. *)
Lemma late_page_is_extracted_again :
  map yield [pageOfThree; pageOfFive; pageOfNone; pageOfTwo] = [3; 5; 0; 2]
  /\ map hasNextPage [pageOfThree; pageOfFive; pageOfNone; pageOfTwo]
     = [true; true; true; false]
  /\ exists s',
       processAllPages (loaded lateSite) = Some s'
       /\ length (allReviews s') = 13
       /\ map page (allReviews s')
          = [1; 1; 1; 2; 2; 2; 3; 3; 3; 3; 3; 4; 4]
       /\ currentPage s' = 4.
Proof.
  split; [reflexivity|]. split; [reflexivity|].
  eexists. split; [vm_compute; reflexivity|]. repeat split.
Qed.

(** ** The revised claims on sample sites *)

Lemma ids_of_extracted_records_witness :
  (exists index r,
      nth_error [blank; good; good] index = Some r
      /\ id (buildReview 0 1 1 good) = 0 + index + 1)
  /\ exists s',
       processAllPages (loaded fourPages) = Some s'
       /\ length (allReviews s') = detectedTotal (console s')
       /\ numbered (allReviews s') /\ NoDup (map id (allReviews s')).
Proof.
  destruct (@ids_of_extracted_records Site StaticSite) as (Hid & _ & Hrun).
  split.
  - destruct (Hid (loaded twoPages) (buildReview 0 1 1 good))
      as (index & r & Hnth & _ & Hindex); [left; reflexivity|].
    exists index, r. split; [exact Hnth|exact Hindex].
  - destruct (processAllPages (loaded fourPages)) as [s'|] eqn:Hend;
      [|vm_compute in Hend; discriminate].
    exists s'. split; [reflexivity|].
    assert (Hall : length (allReviews s') = detectedTotal (console s')).
    { vm_compute in Hend. injection Hend as <-. reflexivity. }
    split; [exact Hall|].
    exact (proj2 (Hrun fourPages s' Hend) Hall).
Defined.

Lemma ceiling_ends_the_run_witness :
  exists s',
    processAllPages (loaded longSite) = Some s'
    /\ hasNextPage (document (surface s')) = true
    /\ currentPage s' = 20
    /\ detectedPages (console s') = seq 1 20
    /\ navigations (console s') = seq 3 19
    /\ travelled longSite 19 (surface s').
Proof.
  destruct (ceiling_ends_the_run longSite) as (s' & Hrun & _ & _ & _ & _ & _
                                               & _ & _ & _ & Hceiling).
  assert (Hnext : hasNextPage (document (surface s')) = true).
  { vm_compute in Hrun. injection Hrun as <-. reflexivity. }
  exists s'. split; [exact Hrun|]. split; [exact Hnext|].
  exact (Hceiling Hnext).
Defined.

Lemma one_turn_witness :
  exists attempts s',
    loopBody (firstPage (log LogStart (setIsProcessing true (loaded twoPages))))
    = Some (true, s')
    /\ 1 <= attempts <= maxAttempts
    /\ currentPage s' = 2.
Proof.
  destruct (one_turn
              (firstPage (log LogStart
                            (setIsProcessing true (loaded twoPages)))))
    as (attempts & s' & Hbody & Hbound & Hpage & _); [reflexivity|].
  exists attempts, s'. split; [exact Hbody|]. split; [exact Hbound|].
  exact Hpage.
Defined.

